(** * Nutrition resolution pipeline of the AI health chatbox

    A shallow embedding of [models/new_nutrition_pipeline.py]
    (class [NutritionPipeline]); of [clean_entity_text],
    [_parse_quantity_str] and the de-duplication of
    [extract_food_with_ner] in [models/ner_extraction.py]; of
    [models/usda_api.py]; and of the helpers [strip_quantity] and
    [separate_main_sub] of [new_main_streamlit.py].

    Conventions of the embedding.
    - A Python [float] is an IEEE 754 binary64 number: Rocq's primitive
      [float].  The integer constants of the source (table entries such as
      [165], limits such as [1200], the literal [10] of [min(factor, 10)])
      only ever meet floats in arithmetic and are written as the floats of
      the same value; the integer zeros returned for ice are the float [0].
    - A Python [str] is a [string]; the text is taken to be ASCII (the
      two Chinese aliases of ice are kept as their UTF-8 bytes), so
      [lower], [strip] and the character classes of the pattern act on
      ASCII characters.
    - An exception is a value of [exn]; code that can raise returns a
      [result].
    - The spaCy model, the USDA service, the recipe database and the
      language model are collaborators outside the repository's logic:
      they are variables of the sections that use them. *)

From Stdlib Require Import ZArith List Bool String Ascii Floats Lia Permutation.
From Stdlib Require Uint63.
Import ListNotations.

Set Warnings "-inexact-float".

(* ------------------------------------------------------------------ *)
(** * Python primitives *)

Module Py.

(** ** Exceptions *)

Inductive exn : Type :=
| ZeroDivisionError
| ValueError.

Inductive result (A : Type) : Type :=
| Ok (a : A)
| Raise (e : exn).
Arguments Ok {A} a.
Arguments Raise {A} e.

Definition bind {A B} (r : result A) (k : A -> result B) : result B :=
  match r with
  | Ok a => k a
  | Raise e => Raise e
  end.

Notation "x <- r ;; k" := (bind r (fun x => k))
  (at level 61, r at next level, right associativity).

(** ** Floats *)

Section FloatPrims.
Local Open Scope float_scope.

(** [min(x, y)]: the first argument unless the second is smaller. *)
Definition min2 (x y : float) : float := if y <? x then y else x.

(** [max(x, y)]: the first argument unless the second is greater. *)
Definition max2 (x y : float) : float := if x <? y then y else x.

(** [x / y]: float division raises on a zero divisor. *)
Definition div (x y : float) : result float :=
  if y =? 0 then Raise ZeroDivisionError else Ok (x / y).

End FloatPrims.

(** The integer nearest to [num / 2^k], ties to the even one
    ([num >= 0]). *)
Definition nearest_even_shift (num : Z) (k : Z) : Z :=
  let den := Z.pow 2 k in
  let q := Z.div num den in
  let r := Z.modulo num den in
  match Z.compare (2 * r) den with
  | Lt => q
  | Gt => q + 1
  | Eq => if Z.even q then q else q + 1
  end%Z.

(** The binary64 number nearest to [n / d] (ties to even), for
    positive [n] and [d], with sign [s]. *)
Definition nearest_ratio (s : bool) (n d : positive) : float :=
  SF2Prim (SFdiv prec emax (S754_finite s n 0) (S754_finite false d 0)).

(** [round(x, 2)] on a float: the decimal with two fractional digits
    nearest to the exact value of [x] (ties to even), read back as the
    nearest float; zeros, infinities and NaN round to themselves. *)
Definition round2 (x : float) : float :=
  match Prim2SF x with
  | S754_finite s m e =>
      let n := match e with
               | Zneg p => nearest_even_shift (Zpos m * 100) (Zpos p)
               | _ => (Zpos m * 100 * Z.pow 2 e)%Z
               end in
      match n with
      | Zpos p => nearest_ratio s p 100
      | _ => if s then (-0)%float else 0%float
      end
  | _ => x
  end.

(** ** Characters and strings *)

Definition is_space (c : ascii) : bool :=
  let n := nat_of_ascii c in
  (Nat.leb 9 n && Nat.leb n 13) || (Nat.leb 28 n && Nat.leb n 32).

Definition is_digit (c : ascii) : bool :=
  let n := nat_of_ascii c in Nat.leb 48 n && Nat.leb n 57.

Definition is_upper (c : ascii) : bool :=
  let n := nat_of_ascii c in Nat.leb 65 n && Nat.leb n 90.

Definition is_alpha (c : ascii) : bool :=
  let n := nat_of_ascii c in
  is_upper c || (Nat.leb 97 n && Nat.leb n 122).

Definition lower_char (c : ascii) : ascii :=
  if is_upper c then ascii_of_nat (nat_of_ascii c + 32) else c.

(** [s.lower()] *)
Fixpoint lower (s : string) : string :=
  match s with
  | EmptyString => EmptyString
  | String c s' => String (lower_char c) (lower s')
  end.

Fixpoint lstrip_with (p : ascii -> bool) (s : string) : string :=
  match s with
  | EmptyString => EmptyString
  | String c s' => if p c then lstrip_with p s' else s
  end.

Fixpoint rstrip_with (p : ascii -> bool) (s : string) : string :=
  match s with
  | EmptyString => EmptyString
  | String c s' =>
      match rstrip_with p s' with
      | EmptyString => if p c then EmptyString else String c EmptyString
      | r => String c r
      end
  end.

(** [s.strip()] *)
Definition strip (s : string) : string :=
  rstrip_with is_space (lstrip_with is_space s).

(** [s.rstrip("s")] for a one-character argument. *)
Definition rstrip_char (c : ascii) (s : string) : string :=
  rstrip_with (Ascii.eqb c) s.

(** [needle in hay] *)
Fixpoint contains (needle hay : string) : bool :=
  prefix needle hay ||
  match hay with
  | EmptyString => false
  | String _ hay' => contains needle hay'
  end.

(** [x in xs] for a list of strings. *)
Definition mem (x : string) (xs : list string) : bool :=
  existsb (String.eqb x) xs.

(** [any(word in s for word in words)] *)
Definition any_in (words : list string) (s : string) : bool :=
  existsb (fun w => contains w s) words.

(** [s.split()]: the maximal runs of non-blank characters. *)
Fixpoint split_ws_aux (cur : string) (s : string) : list string :=
  match s with
  | EmptyString =>
      match cur with EmptyString => [] | _ => [cur] end
  | String c s' =>
      if is_space c then
        match cur with
        | EmptyString => split_ws_aux EmptyString s'
        | _ => cur :: split_ws_aux EmptyString s'
        end
      else split_ws_aux (cur ++ String c EmptyString) s'
  end.

Definition split_ws (s : string) : list string := split_ws_aux EmptyString s.

(** [s.split(sep)] for a one-character separator: empty pieces are kept. *)
Fixpoint split_char_aux (sep : ascii) (cur : string) (s : string) : list string :=
  match s with
  | EmptyString => [cur]
  | String c s' =>
      if Ascii.eqb c sep then cur :: split_char_aux sep EmptyString s'
      else split_char_aux sep (cur ++ String c EmptyString) s'
  end.

Definition split_char (sep : ascii) (s : string) : list string :=
  split_char_aux sep EmptyString s.

(** [s.startswith(p)] and [s.endswith(p)] *)
Definition startswith (s p : string) : bool := prefix p s.

Fixpoint endswith (s p : string) : bool :=
  String.eqb s p ||
  match s with
  | EmptyString => false
  | String _ s' => endswith s' p
  end.

(** [s.replace(old, new)] for a non-empty [old]: every occurrence, left
    to right, without overlap.  [skip] counts the characters of an
    occurrence still to be dropped. *)
Fixpoint replace_aux (old new : string) (skip : nat) (s : string) : string :=
  match s with
  | EmptyString => EmptyString
  | String c s' =>
      match skip with
      | S k => replace_aux old new k s'
      | O =>
          if prefix old s
          then new ++ replace_aux old new (String.length old - 1) s'
          else String c (replace_aux old new 0 s')
      end
  end.

Definition replace (s old new : string) : string := replace_aux old new 0 s.

(** ** [float(s)] on decimal text *)

Definition digit_val (c : ascii) : Z := Z.of_nat (nat_of_ascii c - 48).

Fixpoint digits_val (acc : Z) (s : string) : Z :=
  match s with
  | EmptyString => acc
  | String c s' => digits_val (10 * acc + digit_val c) s'
  end.

Fixpoint all_digits (s : string) : bool :=
  match s with
  | EmptyString => true
  | String c s' => is_digit c && all_digits s'
  end.

(** The float nearest to [n / 10^k]. *)
Definition decimal_float (n : Z) (k : nat) : float :=
  match n with
  | Zpos p => nearest_ratio false p (Z.to_pos (Z.pow 10 (Z.of_nat k)))
  | _ => 0%float
  end.

(** [float(s)] for the text a numeric token can hold: digits with at
    most one decimal point and at least one digit; anything else is a
    [ValueError]. *)
Definition float_of_string (s : string) : result float :=
  match split_char "."%char s with
  | [i] =>
      if all_digits i && negb (String.eqb i "")
      then Ok (decimal_float (digits_val 0 i) 0)
      else Raise ValueError
  | [i; f] =>
      if all_digits i && all_digits f && negb (String.eqb (i ++ f) "")
      then Ok (decimal_float (digits_val 0 (i ++ f)) (String.length f))
      else Raise ValueError
  | _ => Raise ValueError
  end.

(** ** Regular expressions: greedy repetition of a character class

    [rep p min s k] matches [p{min,}] at the head of [s], the longest
    run first, and hands the run and the rest of the text to the
    continuation [k]; when [k] fails it backtracks to shorter runs. *)
Fixpoint rep {R : Type} (p : ascii -> bool) (min : nat) (s : string)
    (k : string -> string -> option R) : option R :=
  match s with
  | String c s' =>
      if p c then
        match rep p (Nat.pred min) s' (fun g rest => k (String c g) rest) with
        | Some r => Some r
        | None => if Nat.eqb min 0 then k EmptyString s else None
        end
      else if Nat.eqb min 0 then k EmptyString s else None
  | EmptyString => if Nat.eqb min 0 then k EmptyString EmptyString else None
  end.

(** [.] matches anything but a newline. *)
Definition re_dot (c : ascii) : bool := negb (Ascii.eqb c "010"%char).

(** [$] matches at the end of the text or before a final newline. *)
Definition re_eos (s : string) : bool :=
  String.eqb s EmptyString || String.eqb s (String "010"%char EmptyString).

End Py.

(* ------------------------------------------------------------------ *)
(** * The pipeline: tables, unit conversion, parsing *)

Import Py.
Local Open Scope string_scope.
Local Open Scope float_scope.

(** The four nutrition figures: the dictionaries with keys
    ["calories"], ["protein"], ["fat"], ["carbs"]. *)
Record Nutrition : Type := {
  calories : float;
  protein : float;
  fat : float;
  carbs : float
}.

(** [d.get(k, default)] on a dictionary in insertion order. *)
Fixpoint dict_get {V : Type} (d : list (string * V)) (k : string) (default : V) : V :=
  match d with
  | [] => default
  | (k', v) :: d' => if String.eqb k' k then v else dict_get d' k default
  end.

(** [self.common_dish_keywords] *)
Definition common_dish_keywords : list string :=
  ["soup"; "salad"; "pizza"; "burger"; "sandwich"; "stew"; "curry";
   "cake"; "pie"; "pasta"; "noodles"; "omelet"; "dumpling"; "fried";
   "steak"; "fries"; "gratin"; "casserole"; "bake"; "coke"; "tea"; "coffee"].

(** [self.main_keywords] and [self.sub_keywords] *)
Definition main_keywords : list string :=
  ["chicken"; "beef"; "pork"; "fish"; "egg"; "shrimp"; "rice"; "noodles";
   "pasta"; "milk"; "tomato"; "cheese"; "penne"; "turkey"; "sausage";
   "coke"; "coffee"; "tea"].

Definition sub_keywords : list string :=
  ["salt"; "pepper"; "oil"; "garlic"; "onion"; "butter"; "sugar"; "cream";
   "flour"; "vinegar"; "powder"; "seasoning"; "herbs"; "spice"; "sauce";
   "chilies"].

Definition nutr (c p f h : float) : Nutrition :=
  {| calories := c; protein := p; fat := f; carbs := h |}.

(** [self.standard_nutrition], per 100 g or ml, in insertion order. *)
Definition standard_nutrition : list (string * Nutrition) :=
  [ ("coke", nutr 37.5 0 0 10.6);
    ("cola", nutr 37.5 0 0 10.6);
    ("coca-cola", nutr 37.5 0 0 10.6);
    ("pepsi", nutr 41 0 0 11);
    ("ice", nutr 0 0 0 0);
    ("water", nutr 0 0 0 0);
    ("mac and cheese", nutr 164 8.5 6.3 17.8);
    ("macaroni and cheese", nutr 164 8.5 6.3 17.8);
    ("mac & cheese", nutr 164 8.5 6.3 17.8);
    ("chicken", nutr 165 31 3.6 0);
    ("beef", nutr 250 26 17 0);
    ("fish", nutr 136 20 5 0);
    ("rice", nutr 130 2.7 0.3 28);
    ("pasta", nutr 131 5 1.1 25);
    ("bread", nutr 265 9 3.2 49) ].

(** [self.portion_sizes] *)
Definition portion_sizes : list (string * float) :=
  [ ("cup", 240); ("tablespoon", 15); ("teaspoon", 5);
    ("slice", 30); ("piece", 50); ("serving", 250) ].

(** [is_probably_dish] *)
Definition is_probably_dish (text : string) : bool :=
  let name := lower text in
  if contains " " name then true
  else existsb (fun kw => contains kw name) common_dish_keywords.

(** The pattern of [parse_ingredient], matched at the start of the
    text: group 1 is a non-empty greedy run of the class of digits,
    slash, dot and blanks; group 2, optional, a non-empty greedy run of
    ASCII letters; then a non-empty greedy run of blanks; group 3 a
    greedy run of any characters but newline, up to the end of the
    text.  The result holds the three groups, the second one absent
    when the unit did not take part. *)
Definition numeric_class (c : ascii) : bool :=
  is_digit c || Ascii.eqb c "/" || Ascii.eqb c "." || is_space c.

Definition ingredient_pattern (s : string) : option (string * option string * string) :=
  rep numeric_class 1 s (fun g1 r1 =>
    let tail (g2 : option string) (r2 : string) :=
      rep is_space 1 r2 (fun _ r3 =>
        rep re_dot 0 r3 (fun g3 r4 =>
          if re_eos r4 then Some (g1, g2, g3) else None)) in
    match rep is_alpha 1 r1 (fun g2 r2 => tail (Some g2) r2) with
    | Some m => Some m
    | None => tail None r1
    end).

(** One whitespace-separated part of the numeric segment, as the body
    of the [try]: a fraction [num/denom] or a plain number. *)
Definition quantity_part (part : string) : result float :=
  if contains "/" part then
    match split_char "/" part with
    | [num; denom] =>
        n <- float_of_string num ;;
        d <- float_of_string denom ;;
        div n d
    | _ => Raise ValueError
    end
  else float_of_string part.

(** The loop over the parts: a part that raises counts for [1.0]. *)
Definition add_part (total_qty : float) (part : string) : float :=
  match quantity_part part with
  | Ok v => total_qty + v
  | Raise _ => total_qty + 1
  end.

(** [parse_ingredient]: (quantity, unit, food name). *)
Definition parse_ingredient (ingredient_str : string) : float * string * string :=
  match ingredient_pattern (strip ingredient_str) with
  | Some (g1, g2, g3) =>
      let qty_raw := strip g1 in
      let unit_raw := match g2 with Some u => u | None => "" end in
      let food_name := lower g3 in
      let total_qty := fold_left add_part (split_ws qty_raw) 0 in
      (total_qty, lower unit_raw, strip food_name)
  | None => (1, "", lower ingredient_str)
  end.

(** The unit names [convert_to_grams] knows, list by list. *)
Definition gram_units : list string := ["g"; "gram"; "grams"].
Definition kilogram_units : list string := ["kg"; "kilogram"; "kilograms"].
Definition ounce_units : list string := ["oz"; "ounce"; "ounces"].
Definition pound_units : list string := ["lb"; "pound"; "pounds"].
Definition cup_units : list string := ["cup"; "cups"].
Definition tablespoon_units : list string := ["tbsp"; "tablespoon"; "tablespoons"].
Definition teaspoon_units : list string := ["tsp"; "teaspoon"; "teaspoons"].
Definition millilitre_units : list string := ["ml"; "milliliter"].
Definition piece_units : list string := ["piece"; "pieces"; "slice"; "slices"].

(** [convert_to_grams] *)
Definition convert_to_grams (qty : float) (unit : string) : float :=
  let unit := lower unit in
  if mem unit gram_units then qty
  else if mem unit kilogram_units then qty * 1000
  else if mem unit ounce_units then qty * 28.35
  else if mem unit pound_units then qty * 453.592
  else if mem unit cup_units then qty * 240
  else if mem unit tablespoon_units then qty * 15
  else if mem unit teaspoon_units then qty * 5
  else if mem unit millilitre_units then qty
  else if mem unit piece_units
       then qty * dict_get portion_sizes (rstrip_char "s" unit) 30
  else qty.

(** The amount in grams, as [get_food_nutrition] takes it: converted
    when a unit is given, a count of 100 g servings otherwise. *)
Definition grams_of (amount : float) (unit : string) : float :=
  if String.eqb unit "" then amount * 100
  else convert_to_grams amount unit.

(** [_identify_food_category]: the category is one of eight names. *)
Definition _identify_food_category (food_name : string) (calories_per_100g : float) : string :=
  let food := lower food_name in
  if any_in ["chicken"; "beef"; "pork"; "fish"; "meat"; "turkey"] food then "meat"
  else if any_in ["rice"; "pasta"; "noodle"; "bread"; "cereal"; "grain"] food then "grain"
  else if any_in ["vegetable"; "carrot"; "broccoli"; "spinach"; "lettuce"] food then "vegetable"
  else if any_in ["fruit"; "apple"; "orange"; "banana"; "berry"] food then "fruit"
  else if any_in ["milk"; "cheese"; "yogurt"; "cream"; "dairy"] food then "dairy"
  else if any_in ["oil"; "butter"; "margarine"; "lard"] food then "oil"
  else if any_in ["drink"; "beverage"; "water"; "juice"; "soda"; "coke"; "cola"] food then "beverage"
  else if 800 <? calories_per_100g then "oil"
  else if 300 <? calories_per_100g then "meat"
  else if 200 <? calories_per_100g then "grain"
  else if calories_per_100g <? 30 then "vegetable"
  else "unknown".

(** [_get_reasonable_max_factor] *)
Definition max_factors : list (string * float) :=
  [ ("meat", 5); ("grain", 8); ("vegetable", 10); ("fruit", 6);
    ("dairy", 8); ("oil", 2); ("beverage", 15); ("unknown", 10) ].

Definition _get_reasonable_max_factor (food_category : string) : float :=
  dict_get max_factors food_category 10.

(** [reasonable_calorie_ranges] of [get_food_nutrition] *)
Definition reasonable_calorie_ranges : list (string * (float * float)) :=
  [ ("meat", (100, 300)); ("grain", (100, 200)); ("vegetable", (20, 80));
    ("fruit", (40, 100)); ("dairy", (50, 400)); ("oil", (800, 900));
    ("beverage", (0, 50)); ("unknown", (50, 300)) ].

Definition calorie_range_of (food_category : string) : float * float :=
  dict_get reasonable_calorie_ranges food_category
    (dict_get reasonable_calorie_ranges "unknown" (50, 300)).

(** The names for which ice is returned at once. *)
Definition ice_aliases : list string :=
  ["ice"; "ice cube"; "ice cubes"; "冰"; "冰块"].

(** [nutrition * factor], each field rounded to two decimals. *)
Definition scaled (n : Nutrition) (factor : float) : Nutrition :=
  {| calories := round2 (calories n * factor);
     protein := round2 (protein n * factor);
     fat := round2 (fat n * factor);
     carbs := round2 (carbs n * factor) |}.

(** The test of the loop over [self.standard_nutrition]. *)
Definition key_matches (food : string) (entry : string * Nutrition) : bool :=
  let key := fst entry in
  String.eqb key food || contains key food || contains food key.

(** The factor used for a table entry: one can for the cola family
    and one serving for mac and cheese when no unit is given, at most
    10 for the cola family. *)
Definition standard_factor (food unit : string) (factor : float) : float :=
  if contains "cola" food || contains "coke" food then
    let factor := if String.eqb unit "" then 3.3 else factor in
    if 10 <? factor then min2 factor 10 else factor
  else if contains "mac" food && contains "cheese" food then
    if String.eqb unit "" then 2.5 else factor
  else factor.

(** [_generic_nutrition_estimate] *)
Definition _generic_nutrition_estimate (food_name : string) (factor : float) : Nutrition :=
  let food := lower food_name in
  let base :=
    if any_in ["chicken"; "beef"; "pork"; "fish"; "meat"] food then nutr 180 25 10 0
    else if any_in ["rice"; "pasta"; "noodle"; "bread"] food then nutr 130 4 1 25
    else if any_in ["vegetable"; "carrot"; "broccoli"; "spinach"] food then nutr 30 2 0.3 6
    else if any_in ["fruit"; "apple"; "orange"; "banana"] food then nutr 60 0.8 0.2 15
    else if any_in ["cheese"; "milk"; "yogurt"; "cream"; "dairy"] food then nutr 130 7 9 5
    else nutr 100 5 5 10 in
  let reasonable_factor := min2 factor 8 in
  scaled base reasonable_factor.

(* ------------------------------------------------------------------ *)
(** * The nutrition resolver *)

Section Resolver.

(** [self.usda.search_food]: the per-100g figures of the best match,
    or nothing. *)
Variable search_food : string -> option Nutrition.

(** The branch of [get_food_nutrition] taken on data of the lookup. *)
Definition from_usda (food : string) (factor : float) (usda_data : Nutrition) : result Nutrition :=
  let api_calories := calories usda_data in
  let food_category := _identify_food_category food api_calories in
  let calorie_range := calorie_range_of food_category in
  if (api_calories <? fst calorie_range * 0.5) || (snd calorie_range * 2 <? api_calories) then
    adjusted_calories <- div (fst calorie_range + snd calorie_range) 2 ;;
    adjustment_ratio <- div adjusted_calories (max2 api_calories 1) ;;
    Ok {| calories := round2 (adjusted_calories * factor);
          protein := round2 (protein usda_data * adjustment_ratio * factor);
          fat := round2 (fat usda_data * adjustment_ratio * factor);
          carbs := round2 (carbs usda_data * adjustment_ratio * factor) |}
  else
    let max_factor := _get_reasonable_max_factor food_category in
    let reasonable_factor := min2 factor max_factor in
    Ok (scaled usda_data reasonable_factor).

(** [get_food_nutrition] *)
Definition get_food_nutrition (food_name : string) (amount : float) (unit : string)
  : result Nutrition :=
  let food := strip (lower food_name) in
  if mem food ice_aliases then Ok (nutr 0 0 0 0)
  else
    factor <- div (grams_of amount unit) 100 ;;
    match find (key_matches food) standard_nutrition with
    | Some (_, std_nutr) => Ok (scaled std_nutr (standard_factor food unit factor))
    | None =>
        match search_food food with
        | Some usda_data => from_usda food factor usda_data
        | None => Ok (_generic_nutrition_estimate food factor)
        end
    end.

End Resolver.

(* ------------------------------------------------------------------ *)
(** * Dish-level aggregation *)

(** One entry of the ingredient breakdown. *)
Record IngredientRecord : Type := {
  food_name : string;
  quantity : float;
  unit : string;
  nutrition : Nutrition
}.

(** The dictionary of type ["dish"] built by [_analyze_ingredients_list]. *)
Record DishAnalysis : Type := {
  dish_name : string;
  ingredients : list IngredientRecord;
  total_nutrition : Nutrition
}.

(** The portion, in multiples of 100 g, of a dish found in the table. *)
Definition dish_portion (dish_name_lower : string) : float :=
  if contains "mac" dish_name_lower && contains "cheese" dish_name_lower then 3
  else if contains "curry" dish_name_lower then 4
  else if contains "coke" dish_name_lower || contains "cola" dish_name_lower then 3.3
  else 2.5.

(** The calorie ceiling of a dish, by the kind its name shows. *)
Definition reasonable_upper_limit (dish_name_lower : string) : float :=
  if contains "curry" dish_name_lower then 900
  else if contains "mac" dish_name_lower && contains "cheese" dish_name_lower then 700
  else if contains "salad" dish_name_lower then 500
  else if contains "soup" dish_name_lower then 400
  else 1200.

(** Field by field sum and product, as the running totals use them. *)
Definition nutr_add (t n : Nutrition) : Nutrition :=
  {| calories := calories t + calories n;
     protein := protein t + protein n;
     fat := fat t + fat n;
     carbs := carbs t + carbs n |}.

Definition nutr_mul (n : Nutrition) (a : float) : Nutrition :=
  {| calories := calories n * a;
     protein := protein n * a;
     fat := fat n * a;
     carbs := carbs n * a |}.

(** [item[field] *= adjustment_factor] for the four fields. *)
Definition rescale_item (a : float) (item : IngredientRecord) : IngredientRecord :=
  {| food_name := food_name item;
     quantity := quantity item;
     unit := unit item;
     nutrition := nutr_mul (nutrition item) a |}.

Section Dish.

Variable search_food : string -> option Nutrition.

(** The loop over the ingredient list: [details] and the four running
    totals are the state. *)
Fixpoint resolve_ingredients (ing_list : list string)
    (details : list IngredientRecord) (total : Nutrition)
  : result (list IngredientRecord * Nutrition) :=
  match ing_list with
  | [] => Ok (details, total)
  | ing :: rest =>
      let '(qty, unit, fname) := parse_ingredient ing in
      n <- get_food_nutrition search_food fname qty unit ;;
      resolve_ingredients rest
        (details ++ [ {| food_name := fname; quantity := round2 qty;
                         unit := unit; nutrition := n |} ])%list
        (nutr_add total n)
  end.

(** [_analyze_ingredients_list] *)
Definition _analyze_ingredients_list (ing_list : list string) (dish_name : string)
  : result DishAnalysis :=
  let dish_name_lower := lower dish_name in
  match find (key_matches dish_name_lower) standard_nutrition with
  | Some (key, std_nutr) =>
      let portion := dish_portion dish_name_lower in
      Ok {| dish_name := dish_name;
            ingredients := [ {| food_name := key; quantity := 1;
                                unit := "serving";
                                nutrition := scaled std_nutr portion |} ];
            total_nutrition := scaled std_nutr portion |}
  | None =>
      r <- resolve_ingredients ing_list [] (nutr 0 0 0 0) ;;
      let '(details, total) := r in
      let limit := reasonable_upper_limit dish_name_lower in
      if limit * 2 <? calories total then
        adjustment_factor <- div limit (calories total) ;;
        Ok {| dish_name := dish_name;
              ingredients := map (rescale_item adjustment_factor) details;
              total_nutrition :=
                {| calories := round2 limit;
                   protein := round2 (protein total * adjustment_factor);
                   fat := round2 (fat total * adjustment_factor);
                   carbs := round2 (carbs total * adjustment_factor) |} |}
      else
        Ok {| dish_name := dish_name;
              ingredients := details;
              total_nutrition :=
                {| calories := round2 (calories total);
                   protein := round2 (protein total);
                   fat := round2 (fat total);
                   carbs := round2 (carbs total) |} |}
  end.

End Dish.

(* ------------------------------------------------------------------ *)
(** * The meal analyzer *)

(** [{"food": ..., "quantity": ...}] *)
Record FoodItem : Type := {
  food : string;
  item_quantity : float
}.

Inductive Source : Type := database | llm.

(** An entry of [dishes_found]. *)
Record DishFound : Type := {
  found_name : string;
  found_ingredients : list string;
  source : Source
}.

(** The four shapes [process_text] returns ([None] apart). *)
Inductive MealResult : Type :=
| Dish (d : DishFound)
| Single (item : IngredientRecord)
| Multiple (detailed_breakdown : list IngredientRecord) (total : Nutrition)
| Combined (dishes : list DishFound) (other_foods : list FoodItem).

(** [self.method]: ["llm"], ["ner"], anything else is the hybrid. *)
Inductive Method : Type := method_llm | method_ner | method_hybrid.

(** [self.ner_extractor is not None] *)
Definition has_ner (m : Method) : bool :=
  match m with method_llm => false | _ => true end.

(** [NERFoodExtractor.time_markers] *)
Definition time_markers : list string :=
  ["today"; "yesterday"; "tomorrow"; "morning"; "evening"; "night";
   "afternoon"; "last night"; "this morning"; "now"; "later"].

(** [NERFoodExtractor.clean_entity_text] *)
Definition clean_marker (text marker : string) : string :=
  let text :=
    if endswith text (" " ++ marker) then replace text (" " ++ marker) "" else text in
  if startswith text (marker ++ " ") then replace text (marker ++ " ") "" else text.

Definition clean_entity_text (text : string) : string :=
  fold_left clean_marker time_markers (strip (lower text)).

(** [classify_ingredients]: main ingredients, then secondary ones. *)
Definition is_main (ing : string) : bool :=
  let lower_ing := lower ing in
  existsb (fun mk => contains mk lower_ing) main_keywords
  || negb (existsb (fun sk => contains sk lower_ing) sub_keywords).

Definition classify_ingredients (ing_list : list string) : list string * list string :=
  (filter is_main ing_list, filter (fun ing => negb (is_main ing)) ing_list).

(** [d[k] = v] on a dictionary in insertion order. *)
Fixpoint dict_set {V : Type} (d : list (string * V)) (k : string) (v : V) : list (string * V) :=
  match d with
  | [] => [(k, v)]
  | (k', v') :: d' =>
      if String.eqb k' k then (k, v) :: d' else (k', v') :: dict_set d' k v
  end.

(** [_merge_ner_llm]: one entry per name, with the largest quantity. *)
Definition merge_one (merged : list (string * float)) (x : FoodItem) : list (string * float) :=
  let fd := lower (strip (food x)) in
  dict_set merged fd (max2 (dict_get merged fd 0) (item_quantity x)).

Definition _merge_ner_llm (ner_foods llm_foods : list FoodItem) : list FoodItem :=
  let merged := fold_left merge_one llm_foods (fold_left merge_one ner_foods []) in
  map (fun '(fd, q) => {| food := fd; item_quantity := q |}) merged.

Section Meal.

Variable method : Method.

(** The collaborators: the USDA lookup; the texts of the FOOD entities
    the spaCy model finds, in document order; the NER and the language
    model extractors; the recipe database, giving the lower-cased title
    and the ingredient texts of the first match; the language model's
    recipe. *)
Variable search_food : string -> option Nutrition.
Variable nlp_food_ents : string -> list string.
Variable extract_food_with_ner : string -> list FoodItem.
Variable extract_food_with_llm : string -> list FoodItem.
Variable search_recipe_in_db : string -> option (string * list string).
Variable generate_recipe_with_llm : string -> list string.

(** [extract_dish_names] *)
Definition extract_dish_names (user_input : string) : list string :=
  let ents := map (fun t => lower (strip t)) (nlp_food_ents user_input) in
  let cleaned_ents :=
    if has_ner method
    then filter (fun c => Nat.leb 2 (String.length c)) (map clean_entity_text ents)
    else ents in
  match cleaned_ents with
  | [] =>
      let fallback := [lower (strip user_input)] in
      if has_ner method then
        match extract_food_with_ner user_input with
        | [] => fallback
        | extracted => map food extracted
        end
      else fallback
  | _ => cleaned_ents
  end.

(** The item of the breakdown for one extracted food, without a unit. *)
Definition resolve_item (f : FoodItem) : result IngredientRecord :=
  n <- get_food_nutrition search_food (food f) (item_quantity f) "" ;;
  Ok {| food_name := food f; quantity := item_quantity f; unit := "";
        nutrition := n |}.

Fixpoint resolve_items (fs : list FoodItem) (details : list IngredientRecord)
    (total : Nutrition) : result (list IngredientRecord * Nutrition) :=
  match fs with
  | [] => Ok (details, total)
  | f :: rest =>
      item <- resolve_item f ;;
      resolve_items rest (details ++ [item])%list (nutr_add total (nutrition item))
  end.

(** [_process_multiple] *)
Definition _process_multiple (text : string) : result (option MealResult) :=
  let extracted :=
    match method with
    | method_llm => extract_food_with_llm text
    | method_ner => extract_food_with_ner text
    | method_hybrid =>
        _merge_ner_llm (extract_food_with_ner text) (extract_food_with_llm text)
    end in
  let extracted :=
    if has_ner method
    then map (fun item => {| food := clean_entity_text (food item);
                             item_quantity := item_quantity item |}) extracted
    else extracted in
  match extracted with
  | [] => Ok None
  | [f] => item <- resolve_item f ;; Ok (Some (Single item))
  | _ =>
      r <- resolve_items extracted [] (nutr 0 0 0 0) ;;
      let '(details, total) := r in
      Ok (Some (Multiple details
                  {| calories := round2 (calories total);
                     protein := round2 (protein total);
                     fat := round2 (fat total);
                     carbs := round2 (carbs total) |}))
  end.

(** The first loop of [process_text]: each name goes to
    [dishes_found] or to [other_foods]. *)
Definition route_name (acc : list DishFound * list FoodItem) (name : string)
  : list DishFound * list FoodItem :=
  let '(dishes_found, other_foods) := acc in
  let standalone := (dishes_found, (other_foods ++ [ {| food := name; item_quantity := 1 |} ])%list) in
  if is_probably_dish name then
    let '(db_title, db_ings) :=
      match search_recipe_in_db name with
      | Some (t, l) => (Some t, l)
      | None => (None, [])
      end in
    match db_ings with
    | _ :: _ =>
        let '(main_ings, sub_ings) := classify_ingredients db_ings in
        ((dishes_found ++
           [ {| found_name := match db_title with
                              | Some t => if String.eqb t "" then name else t
                              | None => name
                              end;
                found_ingredients := (main_ings ++ sub_ings)%list;
                source := database |} ])%list,
         other_foods)
    | [] =>
        match generate_recipe_with_llm name with
        | (_ :: _) as llm_ings =>
            let '(main_ings, sub_ings) := classify_ingredients llm_ings in
            ((dishes_found ++
               [ {| found_name := name;
                    found_ingredients := (main_ings ++ sub_ings)%list;
                    source := llm |} ])%list,
             other_foods)
        | [] => standalone
        end
    end
  else standalone.

(** The second loop: a food of the NER extraction joins [other_foods]
    unless its name lies within the name of a dish found or is the name
    of an item already there. *)
Definition add_extracted (dishes_found : list DishFound)
    (other_foods : list FoodItem) (f : FoodItem) : list FoodItem :=
  let name := lower (food f) in
  if existsb (fun dish => contains name (found_name dish)) dishes_found
  then other_foods
  else if existsb (fun existing_food => String.eqb name (food existing_food)) other_foods
  then other_foods
  else (other_foods ++ [f])%list.

(** [process_text] *)
Definition process_text (text : string) (use_standard_recipe : bool)
  : result (option MealResult) :=
  let dish_names := extract_dish_names text in
  match dish_names with
  | [] => _process_multiple text
  | _ =>
    if negb use_standard_recipe then _process_multiple text
    else
      let '(dishes_found, other_foods) := fold_left route_name dish_names ([], []) in
      let other_foods :=
        if has_ner method
        then fold_left (add_extracted dishes_found) (extract_food_with_ner text) other_foods
        else other_foods in
      match dishes_found, other_foods with
      | [], [] => _process_multiple text
      | [d], [] => Ok (Some (Dish d))
      | _, _ => Ok (Some (Combined dishes_found other_foods))
      end
  end.

End Meal.

(* ------------------------------------------------------------------ *)
(** * Predicates and sample collaborators used in the statements *)

(** [x < 0] is false: [x] is zero, positive, or not a number. *)
Definition not_negative (x : float) : Prop := (x <? 0) = false.

(** [x == 0] in Python's sense: either zero. *)
Definition is_zero_number (x : float) : Prop := (x =? 0) = true.

Definition all_not_negative (n : Nutrition) : Prop :=
  not_negative (calories n) /\ not_negative (protein n) /\
  not_negative (fat n) /\ not_negative (carbs n).

Definition all_zero (n : Nutrition) : Prop :=
  is_zero_number (calories n) /\ is_zero_number (protein n) /\
  is_zero_number (fat n) /\ is_zero_number (carbs n).

(** The lookup reports no negative protein, fat or carbohydrate. *)
Definition lookup_not_negative (search_food : string -> option Nutrition) : Prop :=
  forall f u, search_food f = Some u ->
    not_negative (protein u) /\ not_negative (fat u) /\ not_negative (carbs u).

(** The eight category names. *)
Definition categories : list string :=
  ["meat"; "grain"; "vegetable"; "fruit"; "dairy"; "oil"; "beverage"; "unknown"].

(** The sign of a specification float: zero, positive or NaN. *)
Definition sf_not_negative (x : spec_float) : bool :=
  match x with
  | S754_zero _ | S754_nan => true
  | S754_infinity s | S754_finite s _ _ => negb s
  end.

Definition sf_is_zero (x : spec_float) : bool :=
  match x with
  | S754_zero _ => true
  | _ => false
  end.

(** A lookup that never finds anything, and collaborators that return
    nothing: the service being down or the text holding no food. *)
Definition no_lookup (food : string) : option Nutrition := None.
Definition no_items (text : string) : list FoodItem := [].
Definition no_recipe_row (name : string) : option (string * list string) := None.
Definition no_recipe (name : string) : list string := [].

(** A lookup that knows two foods: one with plausible figures, one
    with an implausible calorie density. *)
Definition sample_lookup (food : string) : option Nutrition :=
  if String.eqb food "tofu" then Some (nutr 76 8 4.8 1.9)
  else if String.eqb food "apple" then Some (nutr 520 0.3 0.2 14)
  else None.

(** The entry of the breakdown [d] is what the loop of
    [_analyze_ingredients_list] builds for the ingredient text [ing]. *)
Definition resolves (search_food : string -> option Nutrition)
    (ing : string) (d : IngredientRecord) : Prop :=
  let '(qty, u, fname) := parse_ingredient ing in
  get_food_nutrition search_food fname qty u = Ok (nutrition d)
  /\ food_name d = fname /\ quantity d = round2 qty /\ unit d = u.

(** The field by field sum of a breakdown, in the order of the loop. *)
Definition sum_nutrition (details : list IngredientRecord) : Nutrition :=
  fold_left nutr_add (map nutrition details) (nutr 0 0 0 0).

(** The four fields rounded to two decimals. *)
Definition rounded (n : Nutrition) : Nutrition :=
  {| calories := round2 (calories n);
     protein := round2 (protein n);
     fat := round2 (fat n);
     carbs := round2 (carbs n) |}.

(** The single entry of a dish found under the table key "ice". *)
Definition ice_serving : IngredientRecord :=
  {| food_name := "ice"; quantity := 1; unit := "serving";
     nutrition := nutr 0 0 0 0 |}.

(** The text begins with a character of the numeric segment. *)
Definition starts_numeric (s : string) : bool :=
  match s with
  | String c _ => numeric_class c
  | EmptyString => false
  end.

(** The entry of [dishes_found] a dish name resolves to: from the
    database when it returns ingredients, else from the language model
    when it does; nothing when both lists are empty. *)
Definition dish_entry_of
    (search_recipe_in_db : string -> option (string * list string))
    (generate_recipe_with_llm : string -> list string)
    (name : string) : option DishFound :=
  match search_recipe_in_db name with
  | Some (t, (_ :: _) as db_ings) =>
      Some {| found_name := if String.eqb t "" then name else t;
              found_ingredients :=
                (fst (classify_ingredients db_ings) ++ snd (classify_ingredients db_ings))%list;
              source := database |}
  | _ =>
      match generate_recipe_with_llm name with
      | (_ :: _) as llm_ings =>
          Some {| found_name := name;
                  found_ingredients :=
                    (fst (classify_ingredients llm_ings) ++ snd (classify_ingredients llm_ings))%list;
                  source := llm |}
      | [] => None
      end
  end.

(** The standalone item the first loop makes of a name. *)
Definition standalone (name : string) : FoodItem :=
  {| food := name; item_quantity := 1 |}.

(** The NER extraction has nothing to add to [other_foods]: each of
    its foods lies within the name of a dish found or is already
    listed. *)
Definition nothing_new (dishes_found : list DishFound)
    (other_foods : list FoodItem) (extracted : list FoodItem) : Prop :=
  forall f, In f extracted ->
    existsb (fun dish => contains (lower (food f)) (found_name dish)) dishes_found = true
    \/ existsb (fun g => String.eqb (lower (food f)) (food g)) other_foods = true.

(** The food [f] lies within the name of no dish of [ds] and no item
    of [fs] bears its lower-cased name. *)
Definition fresh_for (ds : list DishFound) (fs : list FoodItem) (f : FoodItem) : Prop :=
  (forall d, In d ds -> contains (lower (food f)) (found_name d) = false)
  /\ (forall g, In g fs -> food g <> lower (food f)).

(** Sample collaborators: a text naming a soup and an apple, a text
    naming an apple twice, and a text where only the NER extraction
    sees the milk. *)
Definition sample_ents (text : string) : list string :=
  if String.eqb text "chicken soup and an apple" then ["chicken soup"; "apple"]
  else if String.eqb text "an apple and an apple" then ["apple"; "apple"]
  else if String.eqb text "an apple with milk" then ["apple"]
  else [].

Definition sample_ner (text : string) : list FoodItem :=
  map standalone
    (if String.eqb text "chicken soup and an apple" then ["chicken soup"; "apple"]
     else if String.eqb text "an apple and an apple" then ["apple"]
     else if String.eqb text "an apple with milk" then ["apple"; "milk"]
     else []).

Definition sample_db (name : string) : option (string * list string) :=
  if String.eqb name "chicken soup"
  then Some ("grandma's chicken soup", ["1 onion"; "200g chicken"; "salt"])
  else None.

(** Every unit name [convert_to_grams] converts. *)
Definition supported_units : list string :=
  (gram_units ++ kilogram_units ++ ounce_units ++ pound_units ++ cup_units
   ++ tablespoon_units ++ teaspoon_units ++ millilitre_units ++ piece_units)%list.

(** The names of the cola family, as [get_food_nutrition] tests them. *)
Definition cola_family (food : string) : bool :=
  contains "cola" food || contains "coke" food.

(* ------------------------------------------------------------------ *)
(** * The USDA lookup ([models/usda_api.py]) *)

Module USDAFoodLookup.

(** An entry of ["foodNutrients"] and a food of the answer, with the
    keys the code reads. *)
Record FoodNutrient : Type := {
  nutrientName : string;
  value : float
}.

Record FoodData : Type := {
  description : string;
  foodNutrients : list FoodNutrient
}.

(** The body of the loop of [_extract_nutrition_info]; [nutrients] is
    the dictionary being filled. *)
Definition note_nutrient (nutrients : list (string * float)) (nutrient : FoodNutrient)
  : list (string * float) :=
  if String.eqb (nutrientName nutrient) "Energy"
  then dict_set nutrients "calories" (value nutrient)
  else if String.eqb (nutrientName nutrient) "Protein"
  then dict_set nutrients "protein" (value nutrient)
  else if String.eqb (nutrientName nutrient) "Total lipid (fat)"
  then dict_set nutrients "fat" (value nutrient)
  else if String.eqb (nutrientName nutrient) "Carbohydrate, by difference"
  then dict_set nutrients "carbs" (value nutrient)
  else nutrients.

(** [_extract_nutrition_info]: the lower-cased description and the
    four figures, zero for a nutrient that was not listed. *)
Definition _extract_nutrition_info (food_data : FoodData) : string * Nutrition :=
  let nutrients := fold_left note_nutrient (foodNutrients food_data) [] in
  (lower (description food_data),
   {| calories := dict_get nutrients "calories" 0;
      protein := dict_get nutrients "protein" 0;
      fat := dict_get nutrients "fat" 0;
      carbs := dict_get nutrients "carbs" 0 |}).

(** The answer of the service: the status code and, when the key
    ["foods"] is there, the list under it. *)
Record Response : Type := {
  status_code : Z;
  foods : option (list FoodData)
}.

Section Request.

(** [requests.get] on the search URL with the food name as query. *)
Variable requests_get : string -> Response.

(** [search_food] *)
Definition search_food (food_name : string) : option (string * Nutrition) :=
  let response := requests_get food_name in
  if Z.eqb (status_code response) 200 then
    match foods response with
    | Some (first :: _) => Some (_extract_nutrition_info first)
    | _ => None
    end
  else None.

(** The lookup as the pipeline reads it: the four figures. *)
Definition figures (food_name : string) : option Nutrition :=
  option_map snd (search_food food_name).

End Request.

End USDAFoodLookup.

(* ------------------------------------------------------------------ *)
(** * Quantities and duplicates of the NER extractor
      ([models/ner_extraction.py]) *)

Module NERFoodExtractor.

(** The longest run of digits at the head of a text, and the rest. *)
Fixpoint span_digits (s : string) : string * string :=
  match s with
  | String c s' =>
      if is_digit c
      then let '(d, r) := span_digits s' in (String c d, r)
      else (EmptyString, s)
  | EmptyString => (EmptyString, EmptyString)
  end.

(** The pattern of [_parse_quantity_str] at the head of a text: a
    greedy non-empty run of digits, then, when they are there, a dot
    and a greedy non-empty run of digits. *)
Definition number_at (s : string) : option string :=
  match span_digits s with
  | (EmptyString, _) => None
  | (i, String c r) =>
      if Ascii.eqb c "."
      then match span_digits r with
           | (EmptyString, _) => Some i
           | (f, _) => Some (i ++ "." ++ f)
           end
      else Some i
  | (i, EmptyString) => Some i
  end.

(** [re.search]: the match at the leftmost position that has one. *)
Fixpoint re_search_number (s : string) : option string :=
  match number_at s with
  | Some m => Some m
  | None =>
      match s with
      | String _ s' => re_search_number s'
      | EmptyString => None
      end
  end.

(** The blanks [float] skips around a number: tab to carriage return,
    and the space (not the separators 28 to 31 that [strip] removes). *)
Definition is_float_space (c : ascii) : bool :=
  let n := nat_of_ascii c in
  (Nat.leb 9 n && Nat.leb n 13) || Nat.eqb n 32.

(** [float(s)] on a text without a digit, as the fraction branch meets
    it: only the spellings of infinity and of NaN are numbers, in
    either case, with an optional sign and blanks around. *)
Definition float_of_word (s : string) : result float :=
  let t := lower (rstrip_with is_float_space (lstrip_with is_float_space s)) in
  let '(negative, body) :=
    match t with
    | String c r =>
        if Ascii.eqb c "-" then (true, r)
        else if Ascii.eqb c "+" then (false, r)
        else (false, t)
    | EmptyString => (false, t)
    end in
  if String.eqb body "inf" || String.eqb body "infinity"
  then Ok (if negative then neg_infinity else infinity)
  else if String.eqb body "nan" then Ok nan
  else Raise ValueError.

(** [_parse_quantity_str]: the first number of the text; without one,
    the quotient of the first two pieces around the slashes, and [1.0]
    when that raises or there is no slash. *)
Definition _parse_quantity_str (quantity_str : string) : result float :=
  match re_search_number quantity_str with
  | Some m => float_of_string m
  | None =>
      if contains "/" quantity_str then
        match split_char "/" quantity_str with
        | p0 :: p1 :: _ =>
            match (n <- float_of_word p0 ;; d <- float_of_word p1 ;; div n d) with
            | Ok v => Ok v
            | Raise _ => Ok 1
            end
        | _ => Ok 1
        end
      else Ok 1
  end.

(** The first loop of [extract_food_with_ner] over the entities of
    the text, each with its label: a QUANTITY entity sets the quantity
    that the next FOOD entity kept takes (1 without one); a FOOD entity
    whose cleaned text has fewer than two characters is skipped. *)
Fixpoint pair_entities (ents : list (string * string))
    (current_quantity : option float) (food_entities : list FoodItem)
  : result (list FoodItem) :=
  match ents with
  | [] => Ok food_entities
  | (label_, text) :: rest =>
      if String.eqb label_ "QUANTITY" then
        q <- _parse_quantity_str text ;;
        pair_entities rest (Some q) food_entities
      else if String.eqb label_ "FOOD" then
        let clean_food := clean_entity_text text in
        if Nat.ltb (String.length clean_food) 2
        then pair_entities rest current_quantity food_entities
        else
          let qty := match current_quantity with Some q => q | None => 1 end in
          pair_entities rest None
            (food_entities ++ [ {| food := clean_food; item_quantity := qty |} ])%list
      else pair_entities rest current_quantity food_entities
  end.

(** [k in d] *)
Definition dict_has {V : Type} (d : list (string * V)) (k : string) : bool :=
  existsb (fun entry => String.eqb (fst entry) k) d.

(** The last loop of [extract_food_with_ner]: a time marker is
    skipped, a name seen before keeps the higher quantity. *)
Definition keep_highest (food_dict : list (string * float)) (entity : FoodItem)
  : list (string * float) :=
  let fd := food entity in
  if mem fd time_markers then food_dict
  else if dict_has food_dict fd
  then dict_set food_dict fd (max2 (dict_get food_dict fd 0) (item_quantity entity))
  else dict_set food_dict fd (item_quantity entity).

Definition remove_duplicates (food_entities : list FoodItem) : list FoodItem :=
  map (fun '(fd, q) => {| food := fd; item_quantity := q |})
      (fold_left keep_highest food_entities []).

End NERFoodExtractor.

(* ------------------------------------------------------------------ *)
(** * Helpers of the user interface ([new_main_streamlit.py]) *)

(** [strip_quantity]: the food name of an ingredient text, by the
    pattern of [parse_ingredient]. *)
Definition strip_quantity (ing_str : string) : string :=
  match ingredient_pattern (strip ing_str) with
  | Some (_, _, g3) => strip g3
  | None => strip ing_str
  end.

(** [separate_main_sub] *)
Definition separate_main_sub (ingredients : list string) : list string * list string :=
  let '(main_ings, sub_ings) := classify_ingredients ingredients in
  (map strip_quantity main_ings, map strip_quantity sub_ings).

(* ------------------------------------------------------------------ *)
(** * Further predicates used in the statements *)

(** [0 <= x]: [x] is zero or positive, and a number. *)
Definition at_least_zero (x : float) : Prop := (0 <=? x) = true.

(** The text holds a digit. *)
Fixpoint has_digit (s : string) : bool :=
  match s with
  | String c s' => is_digit c || has_digit s'
  | EmptyString => false
  end.

(** The four nutrient names [_extract_nutrition_info] reads, and the
    figure each one fills. *)
Definition usda_names : list string :=
  ["Energy"; "Protein"; "Total lipid (fat)"; "Carbohydrate, by difference"].

Definition figure_of (name : string) (n : Nutrition) : float :=
  if String.eqb name "Energy" then calories n
  else if String.eqb name "Protein" then protein n
  else if String.eqb name "Total lipid (fat)" then fat n
  else carbs n.

(** A name of the mac and cheese kind, as [get_food_nutrition] tests it. *)
Definition mac_and_cheese (food : string) : bool :=
  contains "mac" food && contains "cheese" food.

(** The names of a list of extracted foods, as [_merge_ner_llm] keys
    them. *)
Definition merge_key (x : FoodItem) : string := lower (strip (food x)).

(** The shape of what [_process_multiple] returns. *)
Definition direct_shape (r : option MealResult) : Prop :=
  match r with
  | None => True
  | Some (Single item) => unit item = ""
  | Some (Multiple details total) =>
      2 <= List.length details
      /\ total = rounded (sum_nutrition details)
      /\ Forall (fun d => unit d = "") details
  | Some _ => False
  end.

(** No figure of the result of [_process_multiple] is negative. *)
Definition direct_not_negative (r : option MealResult) : Prop :=
  match r with
  | Some (Single item) => all_not_negative (nutrition item)
  | Some (Multiple details total) =>
      Forall (fun d => all_not_negative (nutrition d)) details
      /\ all_not_negative total
  | _ => True
  end.

(** Sample answers of the USDA service: energy listed twice, in kcal
    and then in kJ, and no carbohydrate. *)
Definition sample_food_data : USDAFoodLookup.FoodData :=
  {| USDAFoodLookup.description := "Tofu, raw";
     USDAFoodLookup.foodNutrients :=
       [ {| USDAFoodLookup.nutrientName := "Energy"; USDAFoodLookup.value := 76 |};
         {| USDAFoodLookup.nutrientName := "Protein"; USDAFoodLookup.value := 8 |};
         {| USDAFoodLookup.nutrientName := "Energy"; USDAFoodLookup.value := 318 |};
         {| USDAFoodLookup.nutrientName := "Total lipid (fat)"; USDAFoodLookup.value := 4.8 |} ] |}.

Definition sample_response (food_name : string) : USDAFoodLookup.Response :=
  if String.eqb food_name "tofu"
  then {| USDAFoodLookup.status_code := 200;
          USDAFoodLookup.foods := Some [sample_food_data] |}
  else {| USDAFoodLookup.status_code := 200; USDAFoodLookup.foods := Some [] |}.

(* ------------------------------------------------------------------ *)
(** * Facts on binary64 arithmetic *)

Module FloatFacts.

Lemma round_aux_sign (s : bool) (m e : Z) (l : location) :
  sf_not_negative (binary_round_aux prec emax s m e l) = negb s
  \/ sf_is_zero (binary_round_aux prec emax s m e l) = true
  \/ binary_round_aux prec emax s m e l = S754_nan.
Proof.
  unfold binary_round_aux.
  destruct (shr_fexp prec emax m e l) as [mrs' e'].
  destruct (shr_fexp prec emax _ e' loc_Exact) as [mrs'' e''].
  destruct (shr_m mrs'') as [|p|p]; auto.
  destruct (Z.leb e'' (emax - prec)); auto.
Qed.

Lemma round_aux_not_negative (m e : Z) (l : location) :
  sf_not_negative (binary_round_aux prec emax false m e l) = true.
Proof.
  destruct (round_aux_sign false m e l) as [H|[H|H]].
  - exact H.
  - destruct (binary_round_aux prec emax false m e l); simpl in *; congruence.
  - rewrite H. reflexivity.
Qed.

Lemma round_not_negative (m : positive) (e : Z) :
  sf_not_negative (binary_round prec emax false m e) = true.
Proof.
  unfold binary_round.
  destruct (shl_align m e _) as [mz ez].
  apply round_aux_not_negative.
Qed.

Lemma normalize_not_negative (m e : Z) :
  (0 <= m)%Z -> sf_not_negative (binary_normalize prec emax m e false) = true.
Proof.
  intros Hm. destruct m as [|p|p]; simpl.
  - reflexivity.
  - apply round_not_negative.
  - lia.
Qed.

Lemma SFmul_not_negative (x y : spec_float) :
  sf_not_negative x = true -> sf_not_negative y = true ->
  sf_not_negative (SFmul prec emax x y) = true.
Proof.
  destruct x as [sx|sx| |sx mx ex], y as [sy|sy| |sy my ey]; simpl;
    intros Hx Hy; try reflexivity;
    try (apply negb_true_iff in Hx); try (apply negb_true_iff in Hy);
    subst; try reflexivity.
  apply round_aux_not_negative.
Qed.

Lemma SFdiv_not_negative (x y : spec_float) :
  sf_not_negative x = true -> sf_not_negative y = true -> sf_is_zero y = false ->
  sf_not_negative (SFdiv prec emax x y) = true.
Proof.
  destruct x as [sx|sx| |sx mx ex], y as [sy|sy| |sy my ey]; simpl;
    intros Hx Hy Hz; try reflexivity; try discriminate;
    try (apply negb_true_iff in Hx); try (apply negb_true_iff in Hy);
    subst; try reflexivity.
  destruct (SFdiv_core_binary prec emax (Z.pos mx) ex (Z.pos my) ey) as [[mz ez] lz].
  apply round_aux_not_negative.
Qed.

Lemma SFadd_not_negative (x y : spec_float) :
  sf_not_negative x = true -> sf_not_negative y = true ->
  sf_not_negative (SFadd prec emax x y) = true.
Proof.
  destruct x as [sx|sx| |sx mx ex], y as [sy|sy| |sy my ey]; simpl;
    intros Hx Hy; try reflexivity;
    try (apply negb_true_iff in Hx); try (apply negb_true_iff in Hy);
    subst; try reflexivity.
  - destruct sx, sy; reflexivity.
  - apply normalize_not_negative. simpl. lia.
Qed.

Lemma Prim2SF_zero : Prim2SF 0 = S754_zero false.
Proof. reflexivity. Qed.

Lemma not_negative_spec (x : float) :
  not_negative x <-> sf_not_negative (Prim2SF x) = true.
Proof.
  unfold not_negative. rewrite ltb_spec, Prim2SF_zero.
  destruct (Prim2SF x) as [s|s| |s m e]; try destruct s; cbn;
    split; intros H; try reflexivity; discriminate H.
Qed.

Lemma is_zero_spec (x : float) : (x =? 0) = sf_is_zero (Prim2SF x).
Proof.
  rewrite eqb_spec, Prim2SF_zero.
  destruct (Prim2SF x) as [s|s| |s m e]; try reflexivity; destruct s; reflexivity.
Qed.

Lemma mul_not_negative (x y : float) :
  not_negative x -> not_negative y -> not_negative (x * y).
Proof.
  rewrite !not_negative_spec, mul_spec. apply SFmul_not_negative.
Qed.

Lemma add_not_negative (x y : float) :
  not_negative x -> not_negative y -> not_negative (x + y).
Proof.
  rewrite !not_negative_spec, add_spec. apply SFadd_not_negative.
Qed.

Lemma div_not_negative (x y : float) :
  not_negative x -> not_negative y -> (y =? 0) = false -> not_negative (x / y).
Proof.
  rewrite !not_negative_spec, div_spec, is_zero_spec. apply SFdiv_not_negative.
Qed.

Lemma min2_not_negative (x y : float) :
  not_negative x -> not_negative y -> not_negative (min2 x y).
Proof. unfold min2. destruct (y <? x); auto. Qed.

Lemma max2_not_negative (x y : float) :
  not_negative x -> not_negative y -> not_negative (max2 x y).
Proof. unfold max2. destruct (x <? y); auto. Qed.

Lemma SF2Prim_not_negative (y : spec_float) :
  sf_not_negative y = true -> not_negative (SF2Prim y).
Proof.
  destruct y as [s|s| |s m e]; simpl; intros H.
  - destruct s; reflexivity.
  - destruct s; [discriminate | reflexivity].
  - reflexivity.
  - apply negb_true_iff in H. subst s.
    apply not_negative_spec.
    rewrite Z_ldexp_spec, of_uint63_spec.
    assert (Hn : sf_not_negative
                   (binary_normalize prec emax
                      (Uint63Axioms.to_Z (Uint63Axioms.of_Z (Z.pos m))) 0 false) = true).
    { apply normalize_not_negative. apply Uint63.to_Z_bounded. }
    destruct (binary_normalize prec emax _ 0 false) as [s|s| |s m' e']; simpl in *;
      try exact Hn.
    apply negb_true_iff in Hn. subst s. apply round_not_negative.
Qed.

Lemma nearest_ratio_not_negative (n d : positive) :
  not_negative (nearest_ratio false n d).
Proof.
  unfold nearest_ratio. apply SF2Prim_not_negative.
  apply SFdiv_not_negative; reflexivity.
Qed.

Lemma round2_not_negative (x : float) :
  not_negative x -> not_negative (round2 x).
Proof.
  intros Hx. unfold round2.
  pose proof (proj1 (not_negative_spec x) Hx) as Hs.
  destruct (Prim2SF x) as [s|s| |s m e]; try exact Hx.
  simpl in Hs. apply negb_true_iff in Hs. subst s.
  match goal with |- not_negative (match ?n with _ => _ end) => destruct n end.
  - reflexivity.
  - apply nearest_ratio_not_negative.
  - reflexivity.
Qed.

(** A number that is not below a non-negative bound is not negative. *)
Lemma not_below_not_negative (x c : float) :
  (x <? c) = false -> (0 <=? c) = true -> not_negative x.
Proof.
  rewrite ltb_spec, leb_spec, Prim2SF_zero, not_negative_spec.
  destruct (Prim2SF x) as [sx|sx| |sx mx ex], (Prim2SF c) as [sc|sc| |sc mc ec];
    simpl; try reflexivity; try discriminate;
    destruct sx; simpl; try reflexivity; try discriminate;
    destruct sc; simpl; try reflexivity; discriminate.
Qed.

(** A number above a non-negative bound is not zero. *)
Lemma above_not_zero (x c : float) :
  (c <? x) = true -> not_negative c -> (x =? 0) = false.
Proof.
  rewrite ltb_spec, is_zero_spec, not_negative_spec.
  destruct (Prim2SF x) as [sx|sx| |sx mx ex], (Prim2SF c) as [sc|sc| |sc mc ec];
    simpl; try reflexivity; try discriminate;
    destruct sc; simpl; try reflexivity; discriminate.
Qed.

(** [max(x, 1)] is never zero. *)
Lemma max2_one_not_zero (x : float) : (max2 x 1 =? 0) = false.
Proof.
  unfold max2. destruct (x <? 1) eqn:Hlt; [reflexivity|].
  rewrite is_zero_spec. rewrite ltb_spec in Hlt.
  change (Prim2SF 1) with (S754_finite false 4503599627370496 (-52)) in Hlt.
  destruct (Prim2SF x) as [sx|sx| |sx mx ex]; simpl in *; try reflexivity.
  discriminate.
Qed.

(** The zero of either sign times a finite number is a zero, and
    rounding keeps a zero. *)
Lemma mul_zero_finite (z x : float) :
  is_zero_number z -> is_finite x = true -> is_zero_number (z * x).
Proof.
  unfold is_zero_number, is_finite, is_nan, is_infinity.
  rewrite !is_zero_spec, mul_spec, !eqb_spec, abs_spec.
  change (Prim2SF infinity) with (S754_infinity false).
  destruct (Prim2SF z) as [sz|sz| |sz mz ez], (Prim2SF x) as [sx|sx| |sx mx ex];
    try destruct sx; cbn; try reflexivity; intros; discriminate.
Qed.

Lemma round2_zero (z : float) : is_zero_number z -> is_zero_number (round2 z).
Proof.
  unfold is_zero_number. intros Hz. unfold round2.
  pose proof Hz as Hs. rewrite is_zero_spec in Hs.
  destruct (Prim2SF z); try discriminate. exact Hz.
Qed.

End FloatFacts.

(* ------------------------------------------------------------------ *)
(** * Facts on substring containment *)

Module StringFacts.

Lemma append_nil_r (s : string) : s ++ "" = s.
Proof. induction s as [|c s IH]; simpl; [reflexivity | now rewrite IH]. Qed.

Lemma append_assoc (a b c : string) : (a ++ b) ++ c = a ++ (b ++ c).
Proof. induction a as [|x a IH]; simpl; [reflexivity | now rewrite IH]. Qed.

Lemma prefix_app (a b : string) :
  prefix a b = true <-> exists s, b = a ++ s.
Proof.
  revert b. induction a as [|x a IH]; intros b; simpl.
  - split; [intros _; now exists b | intros _; destruct b; reflexivity].
  - destruct b as [|y b]; simpl.
    + split; [discriminate | intros [s Hs]; discriminate].
    + destruct (ascii_dec x y) as [->|Hxy].
      * rewrite IH. split; intros [s Hs]; exists s; [now rewrite Hs | now inversion Hs].
      * split; [discriminate | intros [s Hs]; inversion Hs; congruence].
Qed.

Lemma contains_nil (needle : string) : contains needle "" = prefix needle "".
Proof. unfold contains. apply orb_false_r. Qed.

Lemma contains_cons (needle : string) (c : ascii) (hay : string) :
  contains needle (String c hay)
  = prefix needle (String c hay) || contains needle hay.
Proof. reflexivity. Qed.

Lemma contains_app (needle hay : string) :
  contains needle hay = true <-> exists p s, hay = p ++ needle ++ s.
Proof.
  induction hay as [|c hay IH]; [rewrite contains_nil | rewrite contains_cons].
  - rewrite prefix_app. split.
    + intros [s Hs]. now exists "", s.
    + intros [p [s Hs]]. destruct p; [now exists s | discriminate].
  - rewrite orb_true_iff, prefix_app, IH. split.
    + intros [[s Hs] | [p [s Hs]]].
      * now exists "", s.
      * exists (String c p), s. simpl. now rewrite Hs.
    + intros [p [s Hs]]. destruct p as [|x p]; simpl in Hs.
      * left. now exists s.
      * right. inversion Hs. now exists p, s.
Qed.

Lemma contains_refl (s : string) : contains s s = true.
Proof. apply contains_app. exists "", "". simpl. now rewrite append_nil_r. Qed.

Lemma contains_trans (a b c : string) :
  contains a b = true -> contains b c = true -> contains a c = true.
Proof.
  rewrite !contains_app. intros [p [s ->]] [p' [s' ->]].
  exists (p' ++ p), (s ++ s'). now rewrite !append_assoc.
Qed.

Lemma mem_true (x : string) (xs : list string) : mem x xs = true <-> In x xs.
Proof.
  unfold mem. rewrite existsb_exists. split.
  - intros [y [Hy Heq]]. apply String.eqb_eq in Heq. now subst.
  - intros H. exists x. split; [exact H | apply String.eqb_refl].
Qed.

(** A table key does not match a food when the key is not within the
    food and some word within the food is not within the key. *)
Lemma key_matches_false (food key w : string) (v : Nutrition) :
  contains key food = false -> contains w food = true -> contains w key = false ->
  key_matches food (key, v) = false.
Proof.
  intros Hk Hw Hwk. unfold key_matches. simpl. rewrite Hk.
  destruct (String.eqb key food) eqn:He.
  - apply String.eqb_eq in He. subst. rewrite contains_refl in Hk. discriminate.
  - destruct (contains food key) eqn:Hc; [|reflexivity].
    rewrite (contains_trans _ _ _ Hw Hc) in Hwk. discriminate.
Qed.

Lemma contains_false_trans (a b c : string) :
  contains a b = true -> contains a c = false -> contains b c = false.
Proof.
  intros Hab Hac. destruct (contains b c) eqn:Hbc; [|reflexivity].
  rewrite (contains_trans _ _ _ Hab Hbc) in Hac. discriminate.
Qed.

End StringFacts.

(* ------------------------------------------------------------------ *)
(** * The resolver returns, and returns nothing negative *)

Import FloatFacts StringFacts.

Section ResolverFacts.

Variable search_food : string -> option Nutrition.

Lemma div_hundred (x : float) : div x 100 = Ok (x / 100).
Proof. reflexivity. Qed.

Lemma div_two (x : float) : div x 2 = Ok (x / 2).
Proof. reflexivity. Qed.

Lemma div_max_one (x api : float) : div x (max2 api 1) = Ok (x / max2 api 1).
Proof. unfold div. now rewrite max2_one_not_zero. Qed.

(** The branch on lookup data, without the monad. *)
Lemma from_usda_eq (food : string) (factor : float) (u : Nutrition) :
  let api := calories u in
  let category := _identify_food_category food api in
  let lo := fst (calorie_range_of category) in
  let hi := snd (calorie_range_of category) in
  let midpoint := (lo + hi) / 2 in
  let ratio := midpoint / max2 api 1 in
  from_usda food factor u
  = Ok (if (api <? lo * 0.5) || (hi * 2 <? api)
        then {| calories := round2 (midpoint * factor);
                protein := round2 (protein u * ratio * factor);
                fat := round2 (fat u * ratio * factor);
                carbs := round2 (carbs u * ratio * factor) |}
        else scaled u (min2 factor (_get_reasonable_max_factor category))).
Proof.
  intros. unfold from_usda. fold api. fold category. fold lo. fold hi.
  destruct ((api <? lo * 0.5) || (hi * 2 <? api)); [|reflexivity].
  rewrite div_two. cbn [bind]. fold midpoint. rewrite div_max_one. reflexivity.
Qed.

(** [get_food_nutrition], branch by branch. *)
Lemma get_food_nutrition_eq (food_name : string) (amount : float) (unit : string) :
  let fd := strip (lower food_name) in
  let factor := grams_of amount unit / 100 in
  get_food_nutrition search_food food_name amount unit
  = if mem fd ice_aliases then Ok (nutr 0 0 0 0)
    else match find (key_matches fd) standard_nutrition with
         | Some (_, std_nutr) => Ok (scaled std_nutr (standard_factor fd unit factor))
         | None =>
             match search_food fd with
             | Some u => from_usda fd factor u
             | None => Ok (_generic_nutrition_estimate fd factor)
             end
         end.
Proof.
  intros. unfold get_food_nutrition. fold fd.
  destruct (mem fd ice_aliases); [reflexivity|].
  rewrite div_hundred. reflexivity.
Qed.

Lemma get_food_nutrition_ok (food_name : string) (amount : float) (unit : string) :
  exists n, get_food_nutrition search_food food_name amount unit = Ok n.
Proof.
  rewrite get_food_nutrition_eq.
  destruct (mem _ ice_aliases); [eauto|].
  destruct (find _ standard_nutrition) as [[k v]|]; [eauto|].
  destruct (search_food _) as [u|]; [|eauto].
  rewrite from_usda_eq. eauto.
Qed.

Lemma scaled_not_negative (n : Nutrition) (f : float) :
  all_not_negative n -> not_negative f -> all_not_negative (scaled n f).
Proof.
  intros (Hc & Hp & Hf & Hh) Hfac. unfold scaled, all_not_negative. simpl.
  repeat split; apply round2_not_negative; now apply mul_not_negative.
Qed.

Lemma convert_to_grams_not_negative (qty : float) (unit : string) :
  not_negative qty -> not_negative (convert_to_grams qty unit).
Proof.
  intros Hq. unfold convert_to_grams.
  repeat match goal with
         | |- not_negative (if ?c then _ else _) => destruct c
         end;
    try exact Hq; try (apply mul_not_negative; [exact Hq | reflexivity]).
  apply mul_not_negative; [exact Hq|].
  unfold portion_sizes, dict_get.
  repeat match goal with
         | |- not_negative (if ?c then _ else _) => destruct c
         end; reflexivity.
Qed.

Lemma factor_not_negative (amount : float) (unit : string) :
  not_negative amount -> not_negative (grams_of amount unit / 100).
Proof.
  intros Ha. apply div_not_negative; try reflexivity.
  unfold grams_of. destruct (String.eqb unit "").
  - apply mul_not_negative; [exact Ha | reflexivity].
  - now apply convert_to_grams_not_negative.
Qed.

Lemma standard_factor_not_negative (fd unit : string) (factor : float) :
  not_negative factor -> not_negative (standard_factor fd unit factor).
Proof.
  intros Hf. unfold standard_factor.
  destruct (contains "cola" fd || contains "coke" fd).
  - assert (H : not_negative (if String.eqb unit "" then 3.3 else factor))
      by (destruct (String.eqb unit ""); [reflexivity | exact Hf]).
    destruct (10 <? _); [|exact H].
    apply min2_not_negative; [exact H | reflexivity].
  - destruct (contains "mac" fd && contains "cheese" fd); [|exact Hf].
    destruct (String.eqb unit ""); [reflexivity | exact Hf].
Qed.

Lemma standard_entry_not_negative (fd k : string) (v : Nutrition) :
  find (key_matches fd) standard_nutrition = Some (k, v) -> all_not_negative v.
Proof.
  intros H. apply find_some in H. destruct H as [H _].
  unfold standard_nutrition in H. simpl in H.
  repeat (destruct H as [H|H];
          [inversion H; subst; repeat split; reflexivity|]).
  contradiction.
Qed.

Lemma category_known (fd : string) (api : float) :
  In (_identify_food_category fd api) categories.
Proof.
  unfold _identify_food_category, categories.
  repeat match goal with
         | |- In (if ?c then _ else _) _ => destruct c
         end; simpl; tauto.
Qed.

Lemma category_constants (category : string) :
  In category categories ->
  (0 <=? fst (calorie_range_of category) * 0.5) = true
  /\ not_negative ((fst (calorie_range_of category) + snd (calorie_range_of category)) / 2)
  /\ not_negative (_get_reasonable_max_factor category).
Proof.
  unfold categories. simpl.
  intros H. repeat (destruct H as [H|H]; [subst; repeat split; reflexivity|]).
  contradiction.
Qed.

Lemma from_usda_not_negative (fd : string) (factor : float) (u n : Nutrition) :
  not_negative factor ->
  not_negative (protein u) -> not_negative (fat u) -> not_negative (carbs u) ->
  from_usda fd factor u = Ok n -> all_not_negative n.
Proof.
  intros Hfac Hp Hf Hh. rewrite from_usda_eq.
  destruct (category_constants _ (category_known fd (calories u))) as (Hlo & Hmid & Hmax).
  set (category := _identify_food_category fd (calories u)) in *.
  destruct ((calories u <? _) || _) eqn:Hout; intros H; inversion H; subst; clear H.
  - assert (Hr : not_negative
                   ((fst (calorie_range_of category) + snd (calorie_range_of category)) / 2
                    / max2 (calories u) 1)).
    { apply div_not_negative; [exact Hmid | | apply max2_one_not_zero].
      unfold max2. destruct (calories u <? 1) eqn:Hlt; [reflexivity|].
      now apply (not_below_not_negative _ 1). }
    unfold all_not_negative. simpl.
    repeat split; apply round2_not_negative; repeat apply mul_not_negative; assumption.
  - apply orb_false_iff in Hout. destruct Hout as [Hbelow _].
    apply scaled_not_negative.
    + unfold all_not_negative. repeat split; try assumption.
      now apply (not_below_not_negative _ _ Hbelow).
    + now apply min2_not_negative.
Qed.

Lemma generic_not_negative (fd : string) (factor : float) :
  not_negative factor -> all_not_negative (_generic_nutrition_estimate fd factor).
Proof.
  intros Hf. unfold _generic_nutrition_estimate.
  apply scaled_not_negative.
  - repeat match goal with
           | |- all_not_negative (if ?c then _ else _) => destruct c
           end; repeat split; reflexivity.
  - apply min2_not_negative; [exact Hf | reflexivity].
Qed.

(** C1 (as amended): [get_food_nutrition] never raises: for every food
    name, amount and unit it returns a record of the four fields
    calories, protein, fat and carbs.  When the amount is not negative
    and the lookup reports no negative protein, fat or carbohydrate, no
    field of the record is negative (each is zero, positive, or NaN from
    an overflowed product).  When neither the table nor the lookup has
    the food, the record is the estimate of
    [_generic_nutrition_estimate]. *)
Theorem get_food_nutrition_returns_not_negative
    (food_name : string) (amount : float) (unit : string) :
  exists n,
    get_food_nutrition search_food food_name amount unit = Ok n
    /\ (not_negative amount -> lookup_not_negative search_food -> all_not_negative n)
    /\ (let fd := strip (lower food_name) in
        mem fd ice_aliases = false ->
        find (key_matches fd) standard_nutrition = None ->
        search_food fd = None ->
        n = _generic_nutrition_estimate fd (grams_of amount unit / 100)).
Proof.
  destruct (get_food_nutrition_ok food_name amount unit) as [n Hn].
  exists n. split; [exact Hn|].
  rewrite get_food_nutrition_eq in Hn. split.
  - intros Ha Hl.
    pose proof (factor_not_negative amount unit Ha) as Hfac.
    destruct (mem _ ice_aliases).
    { inversion Hn; subst. repeat split; reflexivity. }
    destruct (find _ standard_nutrition) as [[k v]|] eqn:Hfind.
    { inversion Hn; subst. apply scaled_not_negative.
      - exact (standard_entry_not_negative _ _ _ Hfind).
      - now apply standard_factor_not_negative. }
    destruct (search_food _) as [u|] eqn:Hu.
    { destruct (Hl _ _ Hu) as (Hp & Hf & Hh).
      exact (from_usda_not_negative _ _ _ _ Hfac Hp Hf Hh Hn). }
    inversion Hn; subst. now apply generic_not_negative.
  - intros fd Hice Hfind Hu. fold fd in Hn.
    rewrite Hice, Hfind, Hu in Hn. now inversion Hn.
Qed.

(** C3: when the food is not an ice alias, no table entry matches and
    the lookup returns data, the result is decided by the calorie
    density [api] the lookup reports and by the category's plausible
    range [(lo, hi)]: below [0.5 * lo] or above [2 * hi], calories are
    the midpoint times the factor and protein, fat and carbs are the
    reported values times [midpoint / max(api, 1)] times the factor;
    otherwise the reported values are scaled by the factor clamped to
    the category's maximum (meat 5, grain 8, vegetable 10, fruit 6,
    dairy 8, oil 2, beverage 15, unknown 10).  Every field is rounded
    to two decimals. *)
Theorem external_lookup_scaling
    (food_name : string) (amount : float) (unit : string) (usda_data : Nutrition) :
  let fd := strip (lower food_name) in
  mem fd ice_aliases = false ->
  find (key_matches fd) standard_nutrition = None ->
  search_food fd = Some usda_data ->
  let factor := grams_of amount unit / 100 in
  let api := calories usda_data in
  let category := _identify_food_category fd api in
  let lo := fst (calorie_range_of category) in
  let hi := snd (calorie_range_of category) in
  let midpoint := (lo + hi) / 2 in
  let ratio := midpoint / max2 api 1 in
  get_food_nutrition search_food food_name amount unit
  = Ok (if (api <? lo * 0.5) || (hi * 2 <? api)
        then {| calories := round2 (midpoint * factor);
                protein := round2 (protein usda_data * ratio * factor);
                fat := round2 (fat usda_data * ratio * factor);
                carbs := round2 (carbs usda_data * ratio * factor) |}
        else {| calories := round2 (api * min2 factor (_get_reasonable_max_factor category));
                protein := round2 (protein usda_data * min2 factor (_get_reasonable_max_factor category));
                fat := round2 (fat usda_data * min2 factor (_get_reasonable_max_factor category));
                carbs := round2 (carbs usda_data * min2 factor (_get_reasonable_max_factor category)) |})
  /\ In category categories
  /\ map _get_reasonable_max_factor categories = [5; 8; 10; 6; 8; 2; 15; 10].
Proof.
  intros fd Hice Hfind Hu factor api category lo hi midpoint ratio.
  split; [|split; [apply category_known | reflexivity]].
  rewrite get_food_nutrition_eq. fold fd. rewrite Hice, Hfind, Hu.
  apply from_usda_eq.
Qed.

(** The cola family never matches an ice alias and always meets the
    figures of the "coke" and "cola" entries first. *)
Lemma cola_family_entry (fd : string) :
  cola_family fd = true ->
  mem fd ice_aliases = false
  /\ exists k, find (key_matches fd) standard_nutrition = Some (k, nutr 37.5 0 0 10.6).
Proof.
  unfold cola_family. intros Hc. split.
  - destruct (mem fd ice_aliases) eqn:Hm; [|reflexivity].
    apply mem_true in Hm. simpl in Hm.
    repeat (destruct Hm as [Hm|Hm]; [subst fd; discriminate Hc|]).
    contradiction.
  - destruct (contains "coke" fd) eqn:Hcoke.
    + exists "coke". unfold standard_nutrition. cbn [find].
      unfold key_matches at 1. cbn [fst]. rewrite Hcoke, orb_true_r. reflexivity.
    + rewrite orb_false_r in Hc. exists "cola".
      unfold standard_nutrition. cbn [find].
      rewrite (key_matches_false fd "coke" "cola"); [|assumption|assumption|reflexivity].
      unfold key_matches at 1. cbn [fst]. rewrite Hc, orb_true_r. reflexivity.
Qed.

(** C4: "coca-cola" with quantity 1 and no unit has
    [round(37.5 * 3.3, 2) = 123.75] calories; for every name of the cola
    family the figures of the cola entry are scaled by a factor that is
    3.3 when no unit is given, the gram factor capped at 10 when one
    is, and in no case above 10. *)
Theorem cola_family_rule :
  (get_food_nutrition search_food "coca-cola" 1 "" = Ok (nutr 123.75 0 0 34.98)
   /\ round2 (37.5 * 3.3) = 123.75)
  /\ forall (food_name : string) (amount : float) (unit : string),
      cola_family (strip (lower food_name)) = true ->
      exists factor,
        get_food_nutrition search_food food_name amount unit
        = Ok (scaled (nutr 37.5 0 0 10.6) factor)
        /\ (10 <? factor) = false
        /\ (unit = "" -> factor = 3.3)
        /\ (unit <> "" ->
            factor = if 10 <? grams_of amount unit / 100 then 10
                     else grams_of amount unit / 100).
Proof.
  split; [split; reflexivity|].
  intros food_name amount unit Hc.
  destruct (cola_family_entry _ Hc) as [Hice [k Hfind]].
  exists (standard_factor (strip (lower food_name)) unit (grams_of amount unit / 100)).
  rewrite get_food_nutrition_eq, Hice, Hfind.
  split; [reflexivity|].
  unfold standard_factor. unfold cola_family in Hc. rewrite Hc.
  set (f := grams_of amount unit / 100).
  repeat split.
  - destruct (10 <? (if String.eqb unit "" then 3.3 else f)) eqn:H10; [|exact H10].
    unfold min2. rewrite H10. reflexivity.
  - intros ->. reflexivity.
  - intros Hu. apply String.eqb_neq in Hu. rewrite Hu.
    unfold min2. destruct (10 <? f); reflexivity.
Qed.

Lemma scaled_zero (n : Nutrition) (f : float) :
  all_zero n -> is_finite f = true -> all_zero (scaled n f).
Proof.
  intros (Hc & Hp & Hf & Hh) Hfin. unfold scaled, all_zero. simpl.
  repeat split; apply round2_zero; now apply mul_zero_finite.
Qed.

(** C5 (as amended): a name of the ice alias list gives the record of
    four zeros for every amount and unit; "water", which is an entry of
    the table and not an alias, gives four zeros whenever the gram
    factor is finite. *)
Theorem ice_and_water_are_zero
    (food_name : string) (amount : float) (unit : string) :
  let fd := strip (lower food_name) in
  (In fd ice_aliases ->
   get_food_nutrition search_food food_name amount unit = Ok (nutr 0 0 0 0))
  /\ (fd = "water" -> is_finite (grams_of amount unit / 100) = true ->
      exists n, get_food_nutrition search_food food_name amount unit = Ok n
                /\ all_zero n).
Proof.
  intros fd. rewrite get_food_nutrition_eq. fold fd. split.
  - intros Hin. apply mem_true in Hin. now rewrite Hin.
  - intros Hw Hfin. rewrite Hw.
    eexists. split; [reflexivity|].
    apply scaled_zero; [repeat split; reflexivity | exact Hfin].
Qed.

(** A name that holds "ice" and none of the keys before it meets the
    zero entry "ice" first. *)
Lemma ice_entry_first (fd : string) :
  contains "ice" fd = true -> contains "coke" fd = false ->
  contains "cola" fd = false -> contains "pepsi" fd = false ->
  find (key_matches fd) standard_nutrition = Some ("ice", nutr 0 0 0 0).
Proof.
  intros Hice Hcoke Hcola Hpepsi.
  unfold standard_nutrition. cbn [find].
  rewrite (key_matches_false fd "coke" "ice"); [|assumption|assumption|reflexivity].
  rewrite (key_matches_false fd "cola" "ice"); [|assumption|assumption|reflexivity].
  rewrite (key_matches_false fd "coca-cola" "ice");
    [|apply (contains_false_trans "cola"); [reflexivity|assumption]
     |assumption|reflexivity].
  rewrite (key_matches_false fd "pepsi" "ice"); [|assumption|assumption|reflexivity].
  unfold key_matches at 1. cbn [fst]. rewrite Hice, orb_true_r. reflexivity.
Qed.

Lemma standard_factor_finite (fd unit : string) (factor : float) :
  contains "cola" fd = false -> contains "coke" fd = false ->
  is_finite factor = true -> is_finite (standard_factor fd unit factor) = true.
Proof.
  intros Hcola Hcoke Hf. unfold standard_factor. rewrite Hcola, Hcoke. simpl.
  destruct (contains "mac" fd && contains "cheese" fd); [|exact Hf].
  destruct (String.eqb unit ""); [reflexivity | exact Hf].
Qed.

Lemma dish_portion_of_zero (d : string) :
  scaled (nutr 0 0 0 0) (dish_portion d) = nutr 0 0 0 0.
Proof.
  unfold dish_portion.
  repeat match goal with
         | |- scaled _ (if ?c then _ else _) = _ => destruct c
         end; reflexivity.
Qed.

(** C6 (as amended): a food name that holds "ice" and none of "coke",
    "cola" and "pepsi" ("rice" is one) resolves to four zeros for every
    amount and unit with a finite gram factor, because the zero entry
    "ice" is the first key of the table that matches; and a dish whose
    name holds "ice" and none of the three ("fried rice" is one) is
    reported as one serving of "ice" with an all-zero total, whatever
    its ingredients. *)
Theorem ice_key_shadows_later_entries :
  (forall (food_name : string) (amount : float) (unit : string),
      let fd := strip (lower food_name) in
      contains "ice" fd = true -> contains "coke" fd = false ->
      contains "cola" fd = false -> contains "pepsi" fd = false ->
      find (key_matches fd) standard_nutrition = Some ("ice", nutr 0 0 0 0)
      /\ (is_finite (grams_of amount unit / 100) = true ->
          exists n, get_food_nutrition search_food food_name amount unit = Ok n
                    /\ all_zero n))
  /\ (forall (ing_list : list string) (name : string),
      let d := lower name in
      contains "ice" d = true -> contains "coke" d = false ->
      contains "cola" d = false -> contains "pepsi" d = false ->
      _analyze_ingredients_list search_food ing_list name
      = Ok {| dish_name := name; ingredients := [ice_serving];
              total_nutrition := nutr 0 0 0 0 |}).
Proof.
  split.
  - intros food_name amount unit fd Hice Hcoke Hcola Hpepsi.
    split; [exact (ice_entry_first fd Hice Hcoke Hcola Hpepsi)|].
    intros Hfin. rewrite get_food_nutrition_eq. fold fd.
    destruct (mem fd ice_aliases).
    { eexists. split; [reflexivity | repeat split; reflexivity]. }
    rewrite (ice_entry_first fd Hice Hcoke Hcola Hpepsi).
    eexists. split; [reflexivity|].
    apply scaled_zero; [repeat split; reflexivity|].
    now apply standard_factor_finite.
  - intros ing_list name d Hice Hcoke Hcola Hpepsi.
    unfold _analyze_ingredients_list. fold d.
    rewrite (ice_entry_first d Hice Hcoke Hcola Hpepsi).
    unfold ice_serving. rewrite dish_portion_of_zero. reflexivity.
Qed.

(** The loop over the ingredients never raises; it appends one entry
    per ingredient and adds its figures to the totals. *)
Lemma resolve_ingredients_spec (ing_list : list string) :
  forall (details : list IngredientRecord) (total : Nutrition),
  exists ds,
    Forall2 (resolves search_food) ing_list ds
    /\ resolve_ingredients search_food ing_list details total
       = Ok ((details ++ ds)%list, fold_left nutr_add (map nutrition ds) total).
Proof.
  induction ing_list as [|ing rest IH]; intros details total.
  - exists []. split; [constructor|]. simpl. now rewrite app_nil_r.
  - cbn [resolve_ingredients].
    destruct (parse_ingredient ing) as [[qty u] fname] eqn:Hparse.
    destruct (get_food_nutrition_ok fname qty u) as [n Hn].
    rewrite Hn. cbn [bind].
    destruct (IH (details ++ [ {| food_name := fname; quantity := round2 qty;
                                  unit := u; nutrition := n |} ])%list
                 (nutr_add total n)) as [ds [HF Heq]].
    exists ({| food_name := fname; quantity := round2 qty;
               unit := u; nutrition := n |} :: ds).
    split.
    + constructor; [|exact HF].
      unfold resolves. rewrite Hparse. simpl. auto.
    + rewrite Heq. rewrite <- app_assoc. reflexivity.
Qed.

Lemma upper_limit_known (d : string) :
  In (reasonable_upper_limit d) [900; 700; 500; 400; 1200].
Proof.
  unfold reasonable_upper_limit.
  repeat match goal with
         | |- In (if ?c then _ else _) _ => destruct c
         end; simpl; tauto.
Qed.

Lemma upper_limit_constants (limit : float) :
  In limit [900; 700; 500; 400; 1200] ->
  round2 limit = limit /\ not_negative (limit * 2).
Proof.
  simpl. intros H.
  repeat (destruct H as [H|H]; [subst; split; reflexivity|]).
  contradiction.
Qed.

(** C2 (as amended): for a dish name that matches no key of the table,
    the breakdown has one entry per ingredient, resolved by
    [get_food_nutrition].  With [raw] the field by field sum of the
    entries and [limit] the ceiling of the dish (curry 900, mac and
    cheese 700, salad 500, soup 400, otherwise 1200): when [raw]'s
    calories do not exceed twice the limit, the total is [raw] rounded
    to two decimals; when they do, the four fields of every entry are
    multiplied by [limit / raw calories], the total calories are exactly
    the limit and the other totals are those of [raw] times the same
    ratio, rounded. *)
Theorem dish_total_is_sum_or_ceiling (ing_list : list string) (name : string) :
  find (key_matches (lower name)) standard_nutrition = None ->
  exists details,
    Forall2 (resolves search_food) ing_list details
    /\ (let raw := sum_nutrition details in
        let limit := reasonable_upper_limit (lower name) in
        _analyze_ingredients_list search_food ing_list name
        = Ok (if limit * 2 <? calories raw
              then {| dish_name := name;
                      ingredients := map (rescale_item (limit / calories raw)) details;
                      total_nutrition :=
                        {| calories := limit;
                           protein := round2 (protein raw * (limit / calories raw));
                           fat := round2 (fat raw * (limit / calories raw));
                           carbs := round2 (carbs raw * (limit / calories raw)) |} |}
              else {| dish_name := name;
                      ingredients := details;
                      total_nutrition := rounded raw |})
        /\ In limit [900; 700; 500; 400; 1200]).
Proof.
  intros Hfind.
  destruct (resolve_ingredients_spec ing_list [] (nutr 0 0 0 0)) as [ds [HF Heq]].
  exists ds. split; [exact HF|].
  intros raw limit. split; [|apply upper_limit_known].
  unfold _analyze_ingredients_list. rewrite Hfind, Heq. cbn [bind app].
  fold (sum_nutrition ds). fold raw. fold limit.
  destruct (upper_limit_constants limit (upper_limit_known _)) as [Hround Hpos].
  destruct (limit * 2 <? calories raw) eqn:Hover; [|reflexivity].
  unfold div. rewrite (above_not_zero _ _ Hover Hpos). cbn [bind].
  rewrite Hround. reflexivity.
Qed.

End ResolverFacts.

(* ------------------------------------------------------------------ *)
(** * Parsing an ingredient and converting its unit *)

Section ParserFacts.

Lemma rep_needs_first {R : Type} (p : ascii -> bool) (s : string)
    (k : string -> string -> option R) :
  match s with String c _ => p c | EmptyString => false end = false ->
  rep p 1 s k = None.
Proof. destruct s as [|c s]; simpl; intros H; [reflexivity | now rewrite H]. Qed.

Lemma decimal_float_not_negative (n : Z) (k : nat) :
  not_negative (decimal_float n k).
Proof.
  unfold decimal_float. destruct n; try reflexivity.
  apply nearest_ratio_not_negative.
Qed.

Lemma float_of_string_not_negative (s : string) (v : float) :
  float_of_string s = Ok v -> not_negative v.
Proof.
  unfold float_of_string.
  destruct (split_char "." s) as [|i [|f [|x l]]]; try discriminate.
  - destruct (all_digits i && negb (String.eqb i "")); [|discriminate].
    intros H. inversion H. apply decimal_float_not_negative.
  - destruct (all_digits i && all_digits f && negb (String.eqb (i ++ f) ""));
      [|discriminate].
    intros H. inversion H. apply decimal_float_not_negative.
Qed.

Lemma quantity_part_not_negative (part : string) (v : float) :
  quantity_part part = Ok v -> not_negative v.
Proof.
  unfold quantity_part. destruct (contains "/" part).
  - destruct (split_char "/" part) as [|num [|denom [|x l]]]; try discriminate.
    destruct (float_of_string num) as [n|e] eqn:Hn; [|discriminate].
    destruct (float_of_string denom) as [d|e] eqn:Hd; [|discriminate].
    cbn [bind]. unfold div. destruct (d =? 0) eqn:Hz; [discriminate|].
    intros H. inversion H.
    apply div_not_negative;
      [exact (float_of_string_not_negative _ _ Hn)
      |exact (float_of_string_not_negative _ _ Hd)
      |exact Hz].
  - apply float_of_string_not_negative.
Qed.

Lemma add_part_not_negative (total : float) (part : string) :
  not_negative total -> not_negative (add_part total part).
Proof.
  intros Ht. unfold add_part.
  destruct (quantity_part part) as [v|e] eqn:Hq.
  - apply add_not_negative; [exact Ht | exact (quantity_part_not_negative _ _ Hq)].
  - apply add_not_negative; [exact Ht | reflexivity].
Qed.

Lemma sum_parts_not_negative (parts : list string) :
  forall total, not_negative total -> not_negative (fold_left add_part parts total).
Proof.
  induction parts as [|part parts IH]; intros total Ht; simpl.
  - exact Ht.
  - apply IH. now apply add_part_not_negative.
Qed.

(** C7: [parse_ingredient] reads "200g chicken breast" as
    (200.0, "g", "chicken breast"), "1 1/2 cups flour" as
    (1.5, "cups", "flour") and "salt" as (1.0, "", "salt"); a line the
    pattern does not match yields (1.0, "", the line in lower case),
    and the pattern matches no line that, stripped, does not begin
    with a character of the numeric segment; when the pattern matches,
    the quantity is the sum over the blank-separated parts of the
    numeric segment, where a part that raises (as the division by zero
    of "1/0" or the malformed "1.2.3") counts for 1.0; and the
    quantity is never negative. *)
Theorem parse_ingredient_behaviour :
  parse_ingredient "200g chicken breast" = (200, "g", "chicken breast")
  /\ parse_ingredient "1 1/2 cups flour" = (1.5, "cups", "flour")
  /\ parse_ingredient "salt" = (1, "", "salt")
  /\ (forall line, ingredient_pattern (strip line) = None ->
                   parse_ingredient line = (1, "", lower line))
  /\ (forall line, starts_numeric (strip line) = false ->
                   ingredient_pattern (strip line) = None)
  /\ (forall line g1 g2 g3,
         ingredient_pattern (strip line) = Some (g1, g2, g3) ->
         fst (fst (parse_ingredient line))
         = fold_left add_part (split_ws (strip g1)) 0)
  /\ (forall total part e,
         quantity_part part = Raise e -> add_part total part = total + 1)
  /\ (quantity_part "1/0" = Raise ZeroDivisionError
      /\ quantity_part "1.2.3" = Raise ValueError
      /\ parse_ingredient "1/0 2 cups flour" = (3, "cups", "flour"))
  /\ (forall line, not_negative (fst (fst (parse_ingredient line)))).
Proof.
  repeat split; try reflexivity.
  - intros line H. unfold parse_ingredient. now rewrite H.
  - intros line H. unfold ingredient_pattern.
    apply rep_needs_first. exact H.
  - intros line g1 g2 g3 H. unfold parse_ingredient. rewrite H. reflexivity.
  - intros total part e H. unfold add_part. now rewrite H.
  - intros line. unfold parse_ingredient.
    destruct (ingredient_pattern (strip line)) as [[[g1 g2] g3]|]; simpl.
    + apply sum_parts_not_negative. reflexivity.
    + reflexivity.
Qed.

(** C8: [convert_to_grams] gives 2000 for (2, "kg") and 240 for
    (1, "cup"), and returns the quantity unchanged for every unit
    outside the names it converts, as for (3, "unknownunit"). *)
Theorem convert_to_grams_examples_and_default :
  convert_to_grams 2 "kg" = 2000
  /\ convert_to_grams 1 "cup" = 240
  /\ convert_to_grams 3 "unknownunit" = 3
  /\ (forall qty unit, mem (lower unit) supported_units = false ->
                       convert_to_grams qty unit = qty).
Proof.
  repeat split; try reflexivity.
  intros qty unit H. unfold supported_units, mem in H.
  rewrite !existsb_app in H. do 8 (apply orb_false_iff in H; destruct H as [? H]).
  unfold convert_to_grams, mem.
  repeat match goal with
         | Hx : existsb _ ?l = false |- context [existsb _ ?l] => rewrite Hx
         end.
  reflexivity.
Qed.

End ParserFacts.

(* ------------------------------------------------------------------ *)
(** * Routing of dishes and standalone foods *)

Section MealFacts.

Variable method : Method.
Variable search_food : string -> option Nutrition.
Variable nlp_food_ents : string -> list string.
Variable extract_food_with_ner : string -> list FoodItem.
Variable extract_food_with_llm : string -> list FoodItem.
Variable search_recipe_in_db : string -> option (string * list string).
Variable generate_recipe_with_llm : string -> list string.

Local Abbreviation names :=
  (extract_dish_names method nlp_food_ents extract_food_with_ner).
Local Abbreviation route :=
  (route_name search_recipe_in_db generate_recipe_with_llm).
Local Abbreviation entry_of :=
  (dish_entry_of search_recipe_in_db generate_recipe_with_llm).
Local Abbreviation multiple :=
  (_process_multiple method search_food extract_food_with_ner extract_food_with_llm).
Local Abbreviation analyze :=
  (process_text method search_food nlp_food_ents extract_food_with_ner
     extract_food_with_llm search_recipe_in_db generate_recipe_with_llm).

(** One step of the first loop. *)
Lemma route_name_eq (ds : list DishFound) (fs : list FoodItem) (name : string) :
  route (ds, fs) name
  = if is_probably_dish name then
      match entry_of name with
      | Some d => ((ds ++ [d])%list, fs)
      | None => (ds, (fs ++ [standalone name])%list)
      end
    else (ds, (fs ++ [standalone name])%list).
Proof.
  unfold route_name, dish_entry_of, standalone.
  destruct (is_probably_dish name); [|reflexivity].
  destruct (search_recipe_in_db name) as [[t [|i l]]|];
    try (destruct (generate_recipe_with_llm name) as [|i l]; reflexivity).
  reflexivity.
Qed.

(** The second loop adds nothing when the extraction has nothing new. *)
Lemma add_extracted_nothing (ds : list DishFound) (fs : list FoodItem)
    (extracted : list FoodItem) :
  nothing_new ds fs extracted ->
  fold_left (add_extracted ds) extracted fs = fs.
Proof.
  induction extracted as [|f l IH]; intros H; [reflexivity|].
  cbn [fold_left].
  assert (Hf : add_extracted ds fs f = fs).
  { unfold add_extracted.
    destruct (H f (or_introl eq_refl)) as [Hd|Hg]; rewrite ?Hd; [reflexivity|].
    destruct (existsb _ ds); [reflexivity|]. now rewrite Hg. }
  rewrite Hf. apply IH. intros g Hg. apply H. now right.
Qed.

(** The shape of the result once both loops are done. *)
Lemma process_text_eq (text : string) :
  names text <> [] ->
  analyze text true
  = let routed := fold_left route (names text) ([], []) in
    let other_foods :=
      if has_ner method
      then fold_left (add_extracted (fst routed)) (extract_food_with_ner text) (snd routed)
      else snd routed in
    match fst routed, other_foods with
    | [], [] => multiple text
    | [d], [] => Ok (Some (Dish d))
    | _, _ => Ok (Some (Combined (fst routed) other_foods))
    end.
Proof.
  intros Hn. unfold process_text.
  destruct (names text) as [|n l] eqn:E; [contradiction|].
  cbn [negb].
  destruct (fold_left route (n :: l) ([], [])) as [ds fs]. reflexivity.
Qed.

(** Without names, or without the standard recipes, the text goes to
    [_process_multiple]. *)
Lemma process_text_direct (text : string) (use_standard_recipe : bool) :
  names text = [] \/ use_standard_recipe = false ->
  analyze text use_standard_recipe = multiple text.
Proof.
  intros H. unfold process_text.
  destruct (names text) as [|n l]; [reflexivity|].
  destruct H as [H | ->]; [discriminate H | reflexivity].
Qed.

(** C9 (as amended): with the standard recipes in use, when the
    extraction yields exactly one dish name, which resolves to an entry
    with ingredients, and one name that is not a dish, in either order,
    and the NER extraction has nothing new to add, [process_text]
    returns the combined result holding exactly that dish and exactly
    that standalone item; when it yields the dish name alone, it
    returns the entry of [dishes_found] itself, not an analysis of the
    dish: the entry holds the name, the source and every ingredient
    text of the recipe (the main ones first), taken from the database
    when it has ingredients and from the language model otherwise; no
    ingredient is resolved and no total is computed. *)
Theorem one_dish_one_standalone_is_combined
    (text d s : string) (entry : DishFound) :
  is_probably_dish d = true ->
  entry_of d = Some entry ->
  is_probably_dish s = false ->
  (names text = [d; s] \/ names text = [s; d] ->
   (has_ner method = true ->
    nothing_new [entry] [standalone s] (extract_food_with_ner text)) ->
   analyze text true = Ok (Some (Combined [entry] [standalone s])))
  /\ (names text = [d] ->
      (has_ner method = true ->
       nothing_new [entry] [] (extract_food_with_ner text)) ->
      analyze text true = Ok (Some (Dish entry)))
  /\ (exists recipe,
        recipe <> []
        /\ found_ingredients entry
           = (fst (classify_ingredients recipe) ++ snd (classify_ingredients recipe))%list
        /\ ((exists t, search_recipe_in_db d = Some (t, recipe)
                       /\ source entry = database
                       /\ found_name entry = if String.eqb t "" then d else t)
            \/ ((search_recipe_in_db d = None
                 \/ exists t, search_recipe_in_db d = Some (t, []))
                /\ generate_recipe_with_llm d = recipe
                /\ source entry = llm
                /\ found_name entry = d))).
Proof.
  intros Hd Hentry Hs. split; [|split].
  - intros Hnames Hner.
    assert (Hrouted : fold_left route (names text) ([], []) = ([entry], [standalone s])).
    { destruct Hnames as [-> | ->]; cbn [fold_left];
        rewrite !route_name_eq, ?Hd, ?Hs, ?Hentry; cbn [app];
        rewrite ?route_name_eq, ?Hd, ?Hs, ?Hentry; reflexivity. }
    rewrite process_text_eq by (destruct Hnames as [-> | ->]; discriminate).
    rewrite Hrouted. cbn [fst snd].
    destruct (has_ner method).
    + rewrite add_extracted_nothing by now apply Hner. reflexivity.
    + reflexivity.
  - intros Hnames Hner.
    rewrite process_text_eq by (rewrite Hnames; discriminate).
    rewrite Hnames. cbn [fold_left]. rewrite route_name_eq, Hd, Hentry.
    cbn [fst snd app].
    destruct (has_ner method).
    + rewrite add_extracted_nothing by now apply Hner. reflexivity.
    + reflexivity.
  - unfold dish_entry_of in Hentry.
    destruct (search_recipe_in_db d) as [[t [|i db_ings]]|] eqn:Hdb.
    + destruct (generate_recipe_with_llm d) as [|i llm_ings] eqn:Hllm;
        [discriminate|].
      inversion Hentry; subst entry. exists (i :: llm_ings).
      split; [discriminate|]. split; [reflexivity|]. right.
      repeat split. right. now exists t.
    + inversion Hentry; subst entry. exists (i :: db_ings).
      split; [discriminate|]. split; [reflexivity|]. left.
      exists t. repeat split.
    + destruct (generate_recipe_with_llm d) as [|i llm_ings] eqn:Hllm;
        [discriminate|].
      inversion Hentry; subst entry. exists (i :: llm_ings).
      split; [discriminate|]. split; [reflexivity|]. right.
      repeat split. now left.
Qed.

Lemma existsb_false {A : Type} (p : A -> bool) (l : list A) :
  existsb p l = false -> forall x, In x l -> p x = false.
Proof.
  intros H x Hx. destruct (p x) eqn:E; [|reflexivity].
  assert (existsb p l = true) by (apply existsb_exists; eauto). congruence.
Qed.

(** What the second loop appends is fresh at the time it is appended. *)
Lemma add_extracted_fresh (ds : list DishFound) (extracted : list FoodItem) :
  forall fs, exists added,
    fold_left (add_extracted ds) extracted fs = (fs ++ added)%list
    /\ forall pre f post, added = (pre ++ f :: post)%list ->
                          fresh_for ds (fs ++ pre) f.
Proof.
  induction extracted as [|f l IH]; intros fs.
  - exists []. split; [simpl; now rewrite app_nil_r|].
    intros [|x pre] g post H; discriminate H.
  - cbn [fold_left]. unfold add_extracted at 2.
    destruct (existsb (fun dish => contains (lower (food f)) (found_name dish)) ds) eqn:Hd;
      [apply IH|].
    destruct (existsb (fun g => String.eqb (lower (food f)) (food g)) fs) eqn:Hg;
      [apply IH|].
    destruct (IH (fs ++ [f])%list) as [added [Heq Hfresh]].
    exists (f :: added). split.
    + rewrite Heq, <- app_assoc. reflexivity.
    + intros [|x pre] g post H; inversion H; subst.
      * rewrite app_nil_r. split.
        -- intros d Hin. exact (existsb_false _ _ Hd d Hin).
        -- intros g' Hin Heq'. pose proof (existsb_false _ _ Hg g' Hin) as Hne.
           simpl in Hne. rewrite Heq', String.eqb_refl in Hne. discriminate.
      * specialize (Hfresh pre g post eq_refl).
        rewrite <- app_assoc in Hfresh. exact Hfresh.
Qed.

Lemma process_multiple_not_combined (text : string)
    (ds : list DishFound) (fs : list FoodItem) :
  multiple text <> Ok (Some (Combined ds fs)).
Proof.
  unfold _process_multiple.
  match goal with
  | |- match ?e with _ => _ end <> _ => destruct e as [|f [|g l]]
  end.
  - discriminate.
  - destruct (resolve_item search_food f); discriminate.
  - destruct (resolve_items search_food _ _ _) as [[details total]|e]; discriminate.
Qed.

(** The second loop as a whole: the first loop's items, then fresh
    additions, none without a NER extractor. *)
Lemma second_loop_shape (ds : list DishFound) (fs : list FoodItem) (text : string) :
  exists added,
    (if has_ner method
     then fold_left (add_extracted ds) (extract_food_with_ner text) fs
     else fs) = (fs ++ added)%list
    /\ (has_ner method = false -> added = [])
    /\ forall pre f post, added = (pre ++ f :: post)%list ->
                          fresh_for ds (fs ++ pre) f.
Proof.
  destruct (has_ner method).
  - destruct (add_extracted_fresh ds (extract_food_with_ner text) fs)
      as [added [Heq Hfresh]].
    exists added. split; [exact Heq|]. split; [discriminate | exact Hfresh].
  - exists []. split; [now rewrite app_nil_r|]. split; [reflexivity|].
    intros [|x pre] f post H; discriminate H.
Qed.

(** C10 (as amended): in a combined result the dishes and the leading
    standalone items are those of the first loop, taken from the
    extracted names without a check for duplicates; every item the NER
    extraction adds after them is fresh when it is added: its
    lower-cased name lies within the name of no dish found and is the
    name of no item before it in the list. *)
Theorem extracted_additions_are_fresh
    (text : string) (use_standard_recipe : bool)
    (ds : list DishFound) (fs : list FoodItem) :
  analyze text use_standard_recipe = Ok (Some (Combined ds fs)) ->
  let routed := fold_left route (names text) ([], []) in
  ds = fst routed
  /\ exists added,
      fs = (snd routed ++ added)%list
      /\ (has_ner method = false -> added = [])
      /\ forall pre f post, added = (pre ++ f :: post)%list ->
                            fresh_for ds (snd routed ++ pre) f.
Proof.
  intros H routed.
  assert (Hmode : names text <> [] /\ use_standard_recipe = true).
  { destruct (names text) as [|n l] eqn:E.
    - rewrite process_text_direct in H by (left; exact E).
      destruct (process_multiple_not_combined _ _ _ H).
    - destruct use_standard_recipe; [split; [discriminate | reflexivity]|].
      rewrite process_text_direct in H by (right; reflexivity).
      destruct (process_multiple_not_combined _ _ _ H). }
  destruct Hmode as [Hn ->].
  rewrite (process_text_eq text Hn) in H. cbv zeta in H.
  change (fold_left route (names text) ([], [])) with routed in H.
  destruct (second_loop_shape (fst routed) (snd routed) text)
    as [added [Heq [Hll Hfresh]]].
  rewrite Heq in H.
  assert (Hres : ds = fst routed /\ fs = (snd routed ++ added)%list).
  { destruct (fst routed) as [|d [|d' l]]; destruct (snd routed ++ added)%list as [|g gs];
      try (now inversion H); try discriminate H.
    destruct (process_multiple_not_combined _ _ _ H). }
  destruct Hres as [-> ->]. split; [reflexivity|].
  exists added. auto.
Qed.

End MealFacts.

(* ------------------------------------------------------------------ *)
(** * Concrete runs *)

Section Runs.

(** Rounding to two decimals on values where the decimal and the
    binary readings differ: 2.675 is stored below the tie and goes
    down; 0.125 is an exact tie and goes to the even digit. *)
Example round2_samples :
  round2 2.675 = 2.67 /\ round2 0.125 = 0.12 /\ round2 0.375 = 0.38
  /\ round2 1.005 = 1 /\ round2 (-0.001) = (-0)%float
  /\ round2 1e22 = 1e22 /\ round2 infinity = infinity.
Proof. repeat split; reflexivity. Qed.

(** The pattern backtracks: in "2 eggs" the numeric segment first
    takes the blank, then gives it back so that blanks separate it from
    the name; in "2 large eggs" the word "large" is read as the unit. *)
Example parse_samples :
  parse_ingredient "2 eggs" = (2, "", "eggs")
  /\ parse_ingredient "2 large eggs" = (2, "large", "eggs")
  /\ parse_ingredient "330ml Coca-Cola" = (330, "ml", "coca-cola")
  /\ parse_ingredient "2eggs" = (1, "", "2eggs")
  /\ parse_ingredient ".5 cup Milk" = (0.5, "cup", "milk").
Proof. repeat split; reflexivity. Qed.

(** Against C1 as stated: a negative amount gives negative figures. *)
Lemma negative_amount_gives_negative_figures :
  get_food_nutrition no_lookup "chicken" (-1) ""
  = Ok (nutr (-165) (-31) (-3.6) (-0))
  /\ (-165 <? 0) = true.
Proof. split; reflexivity. Qed.

Lemma resolve_not_negative_witness :
  exists n, get_food_nutrition no_lookup "tofu" 2 "cup" = Ok n /\ all_not_negative n.
Proof.
  destruct (get_food_nutrition_returns_not_negative no_lookup "tofu" 2 "cup")
    as [n [Hn [Hnn _]]].
  exists n. split; [exact Hn|].
  apply Hnn; [reflexivity | intros f u H; discriminate H].
Defined.

(** Against C2 as stated: the ingredients of this "chicken soup" sum to
    925 kcal, more than twice the ceiling 400 of a soup, yet the total
    is the 412.5 kcal of one table serving of "chicken", not 400, and
    the breakdown is that single serving. *)
Lemma table_dish_ignores_ceiling :
  resolve_ingredients no_lookup ["500g chicken"; "100g tofu"] [] (nutr 0 0 0 0)
  = Ok ([ {| food_name := "chicken"; quantity := 500; unit := "g";
             nutrition := nutr 825 155 18 0 |};
          {| food_name := "tofu"; quantity := 100; unit := "g";
             nutrition := nutr 100 5 5 10 |} ],
        nutr 925 160 23 10)
  /\ reasonable_upper_limit (lower "chicken soup") = 400
  /\ (400 * 2 <? 925) = true
  /\ _analyze_ingredients_list no_lookup ["500g chicken"; "100g tofu"] "chicken soup"
     = Ok {| dish_name := "chicken soup";
             ingredients := [ {| food_name := "chicken"; quantity := 1;
                                 unit := "serving";
                                 nutrition := nutr 412.5 77.5 9 0 |} ];
             total_nutrition := nutr 412.5 77.5 9 0 |}.
Proof. repeat split; reflexivity. Qed.

Lemma dish_ceiling_witness :
  exists details,
    Forall2 (resolves no_lookup) ["500g tofu"; "400g tofu"] details
    /\ exists r, _analyze_ingredients_list no_lookup ["500g tofu"; "400g tofu"] "Miso Soup"
                 = Ok r.
Proof.
  destruct (dish_total_is_sum_or_ceiling no_lookup ["500g tofu"; "400g tofu"]
              "Miso Soup" eq_refl) as [details [HF [Heq _]]].
  exists details. split; [exact HF|]. eexists. exact Heq.
Defined.

(** The soup of the specification: ingredients summing to 900 kcal
    against the ceiling 400 are rescaled by 400/900 and the total is
    400 kcal. *)
Example soup_is_rescaled_to_its_ceiling :
  _analyze_ingredients_list no_lookup ["500g tofu"; "400g tofu"] "Miso Soup"
  = Ok {| dish_name := "Miso Soup";
          ingredients :=
            [ {| food_name := "tofu"; quantity := 500; unit := "g";
                 nutrition := nutr_mul (nutr 500 25 25 50) (400 / 900) |};
              {| food_name := "tofu"; quantity := 400; unit := "g";
                 nutrition := nutr_mul (nutr 400 20 20 40) (400 / 900) |} ];
          total_nutrition := nutr 400 20 20 40 |}.
Proof. reflexivity. Qed.

Lemma external_lookup_witness :
  get_food_nutrition sample_lookup "Tofu" 2 "cup" = Ok (nutr 364.8 38.4 23.04 9.12).
Proof.
  exact (proj1 (external_lookup_scaling sample_lookup "Tofu" 2 "cup"
                  (nutr 76 8 4.8 1.9) eq_refl eq_refl eq_refl)).
Defined.

(** An implausible density: 520 kcal per 100 g for an apple, a fruit
    with the plausible range 40 to 100, is replaced by the midpoint 70. *)
Example implausible_density_is_replaced :
  get_food_nutrition sample_lookup "apple" 2 ""
  = Ok {| calories := 140;
          protein := round2 (0.3 * (70 / 520) * 2);
          fat := round2 (0.2 * (70 / 520) * 2);
          carbs := round2 (14 * (70 / 520) * 2) |}.
Proof. reflexivity. Qed.

Lemma cola_cap_witness :
  exists factor,
    get_food_nutrition no_lookup "Diet Coke" 20 "cup"
    = Ok (scaled (nutr 37.5 0 0 10.6) factor)
    /\ (10 <? factor) = false.
Proof.
  destruct (proj2 (cola_family_rule no_lookup) "Diet Coke" 20 "cup" eq_refl)
    as [factor [H1 [H2 _]]].
  exists factor. split; assumption.
Defined.

(** Against C5 as stated: the amount [1e308] of "water" overflows the
    gram factor, and zero times infinity is not a number. *)
Lemma water_overflow_is_not_zero :
  get_food_nutrition no_lookup "water" 1e308 "" = Ok (nutr nan nan nan nan)
  /\ (nan =? 0) = false.
Proof. split; reflexivity. Qed.

Lemma water_zero_witness :
  exists n, get_food_nutrition no_lookup "Water" 2 "cup" = Ok n /\ all_zero n.
Proof.
  exact (proj2 (ice_and_water_are_zero no_lookup "Water" 2 "cup") eq_refl eq_refl).
Defined.

(** Against C6 as stated: these names hold "ice" and are not zero,
    because the key "coke" matches before the key "ice". *)
Lemma iced_coke_is_not_zero :
  contains "ice" "iced coke" = true
  /\ get_food_nutrition no_lookup "iced coke" 1 "" = Ok (nutr 123.75 0 0 34.98)
  /\ contains "ice" "rice and coke" = true
  /\ _analyze_ingredients_list no_lookup [] "rice and coke"
     = Ok {| dish_name := "rice and coke";
             ingredients := [ {| food_name := "coke"; quantity := 1;
                                 unit := "serving";
                                 nutrition := nutr 123.75 0 0 34.98 |} ];
             total_nutrition := nutr 123.75 0 0 34.98 |}.
Proof. repeat split; reflexivity. Qed.

Lemma rice_is_zero_witness :
  exists n, get_food_nutrition no_lookup "rice" 3 "" = Ok n /\ all_zero n.
Proof.
  exact (proj2 (proj1 (ice_key_shadows_later_entries no_lookup) "rice" 3 ""
                  eq_refl eq_refl eq_refl eq_refl) eq_refl).
Defined.

Lemma parse_default_witness :
  parse_ingredient "  Salt " = (1, "", "  salt ").
Proof.
  pose proof parse_ingredient_behaviour as (_ & _ & _ & Hdefault & Hnomatch & _).
  apply Hdefault. apply Hnomatch. reflexivity.
Defined.

Lemma unknown_unit_witness : convert_to_grams 7 "Bunch" = 7.
Proof.
  exact (proj2 (proj2 (proj2 convert_to_grams_examples_and_default)) 7 "Bunch" eq_refl).
Defined.

(** Against C9 as stated: for a single dish [process_text] returns
    the entry of [dishes_found], its ingredients still the texts of the
    recipe; the analysis of the dish, with resolved ingredients and a
    total, is another value, which only [_analyze_ingredients_list]
    computes. *)
Lemma single_dish_is_returned_unanalysed :
  process_text method_llm no_lookup sample_ents no_items no_items
    sample_db no_recipe "chicken soup" true
  = Ok (Some (Dish {| found_name := "grandma's chicken soup";
                      found_ingredients := ["200g chicken"; "1 onion"; "salt"];
                      source := database |}))
  /\ _analyze_ingredients_list no_lookup ["200g chicken"; "1 onion"; "salt"]
       "grandma's chicken soup"
     = Ok {| dish_name := "grandma's chicken soup";
             ingredients := [ {| food_name := "chicken"; quantity := 1;
                                 unit := "serving";
                                 nutrition := nutr 412.5 77.5 9 0 |} ];
             total_nutrition := nutr 412.5 77.5 9 0 |}.
Proof. split; reflexivity. Qed.

(** A recipe of the language model is kept whole, down to a recipe of
    one ingredient. *)
Example generated_recipe_is_kept_whole :
  route_name no_recipe_row (fun _ => ["2 eggs"]) ([], []) "egg soup"
  = ([ {| found_name := "egg soup"; found_ingredients := ["2 eggs"];
          source := llm |} ], [])
  /\ route_name no_recipe_row (fun _ => ["salt"; "2 eggs"; "1 onion"]) ([], []) "egg soup"
     = ([ {| found_name := "egg soup";
             found_ingredients := ["2 eggs"; "salt"; "1 onion"];
             source := llm |} ], []).
Proof. split; reflexivity. Qed.

Lemma soup_and_apple_witness :
  process_text method_hybrid no_lookup sample_ents sample_ner no_items
    sample_db no_recipe "chicken soup and an apple" true
  = Ok (Some (Combined
                [ {| found_name := "grandma's chicken soup";
                     found_ingredients := ["200g chicken"; "1 onion"; "salt"];
                     source := database |} ]
                [ standalone "apple" ])).
Proof.
  refine (proj1 (one_dish_one_standalone_is_combined method_hybrid no_lookup
                   sample_ents sample_ner no_items sample_db no_recipe
                   "chicken soup and an apple" "chicken soup" "apple" _
                   eq_refl eq_refl eq_refl) (or_introl eq_refl) _).
  intros _ f Hin. simpl in Hin.
  destruct Hin as [<-|[<-|[]]]; [left | right]; reflexivity.
Defined.

(** Against C10 as stated: a name the first extraction yields twice is
    listed twice. *)
Lemma repeated_name_is_listed_twice :
  process_text method_hybrid no_lookup sample_ents sample_ner no_items
    no_recipe_row no_recipe "an apple and an apple" true
  = Ok (Some (Combined [] [standalone "apple"; standalone "apple"])).
Proof. reflexivity. Qed.

Lemma fresh_addition_witness :
  exists added,
    [standalone "apple"; standalone "milk"] = ([standalone "apple"] ++ added)%list
    /\ forall pre f post, added = (pre ++ f :: post)%list ->
                          fresh_for [] ([standalone "apple"] ++ pre) f.
Proof.
  destruct (extracted_additions_are_fresh method_hybrid no_lookup sample_ents
              sample_ner no_items no_recipe_row no_recipe "an apple with milk"
              true [] [standalone "apple"; standalone "milk"] eq_refl)
    as [_ [added [H1 [_ H3]]]].
  exists added. split; [exact H1 | exact H3].
Defined.

End Runs.

(* ------------------------------------------------------------------ *)
(** * Facts on case and blanks *)

Module TextFacts.

Lemma lower_char_idem (c : ascii) : lower_char (lower_char c) = lower_char c.
Proof. destruct c as [[] [] [] [] [] [] [] []]; reflexivity. Qed.

Lemma is_space_lower_char (c : ascii) : is_space (lower_char c) = is_space c.
Proof. destruct c as [[] [] [] [] [] [] [] []]; reflexivity. Qed.

Lemma lower_idem (s : string) : lower (lower s) = lower s.
Proof.
  induction s as [|c s IH]; [reflexivity|].
  simpl. now rewrite lower_char_idem, IH.
Qed.

Lemma lower_app (a b : string) : lower (a ++ b) = lower a ++ lower b.
Proof.
  induction a as [|c a IH]; [reflexivity|].
  simpl. now rewrite IH.
Qed.

Lemma lstrip_lower (s : string) :
  lower (lstrip_with is_space s) = lstrip_with is_space (lower s).
Proof.
  induction s as [|c s IH]; [reflexivity|].
  simpl. rewrite is_space_lower_char.
  destruct (is_space c); [exact IH | reflexivity].
Qed.

Lemma rstrip_lower (s : string) :
  lower (rstrip_with is_space s) = rstrip_with is_space (lower s).
Proof.
  induction s as [|c s IH]; [reflexivity|].
  simpl. rewrite <- IH, is_space_lower_char.
  destruct (rstrip_with is_space s); simpl; [|reflexivity].
  destruct (is_space c); reflexivity.
Qed.

(** [s.strip().lower()] is [s.lower().strip()]. *)
Lemma strip_lower (s : string) : lower (strip s) = strip (lower s).
Proof. unfold strip. now rewrite rstrip_lower, lstrip_lower. Qed.

Lemma rstrip_idem (p : ascii -> bool) (s : string) :
  rstrip_with p (rstrip_with p s) = rstrip_with p s.
Proof.
  induction s as [|c s IH]; [reflexivity|].
  simpl. destruct (rstrip_with p s) as [|b r] eqn:E.
  - destruct (p c) eqn:Hc; [reflexivity|]. simpl. now rewrite Hc.
  - change (rstrip_with p (String c (String b r))) with
      (match rstrip_with p (String b r) with
       | EmptyString => if p c then EmptyString else String c EmptyString
       | r' => String c r'
       end).
    now rewrite IH.
Qed.

Lemma lstrip_head (p : ascii -> bool) (s : string) :
  lstrip_with p s = ""
  \/ exists c r, lstrip_with p s = String c r /\ p c = false.
Proof.
  induction s as [|c s IH]; [now left|].
  simpl. destruct (p c) eqn:Hc; [exact IH|].
  right. now exists c, s.
Qed.

Lemma rstrip_keeps_head (p : ascii -> bool) (c : ascii) (r : string) :
  p c = false -> exists r', rstrip_with p (String c r) = String c r'.
Proof.
  intros Hc. simpl. destruct (rstrip_with p r); [rewrite Hc|]; eauto.
Qed.

Lemma strip_idem (s : string) : strip (strip s) = strip s.
Proof.
  unfold strip.
  destruct (lstrip_head is_space s) as [E | (c & r & E & Hc)]; rewrite E.
  - reflexivity.
  - destruct (rstrip_keeps_head is_space c r Hc) as [r' E'].
    rewrite E'. simpl lstrip_with. rewrite Hc, <- E'.
    apply rstrip_idem.
Qed.

(** The name [get_food_nutrition] works on is a fixed point of its own
    normalisation. *)
Lemma normal_form_idem (s : string) :
  strip (lower (strip (lower s))) = strip (lower s).
Proof. now rewrite <- strip_lower, strip_idem, strip_lower, lower_idem. Qed.

Lemma contains_lower (a b : string) :
  contains a b = true -> contains (lower a) (lower b) = true.
Proof.
  intros H. apply contains_app in H. destruct H as (p & s & ->).
  apply contains_app. exists (lower p), (lower s).
  now rewrite !lower_app.
Qed.

Lemma endswith_app (s p : string) :
  endswith s p = true -> exists pre, s = pre ++ p.
Proof.
  induction s as [|c s IH]; cbn [endswith]; intros H.
  - apply orb_true_iff in H. destruct H as [H|H]; [|discriminate].
    apply String.eqb_eq in H. subst. now exists "".
  - apply orb_true_iff in H. destruct H as [H|H].
    + apply String.eqb_eq in H. subst. now exists "".
    + destruct (IH H) as [pre ->]. now exists (String c pre).
Qed.

End TextFacts.

(* ------------------------------------------------------------------ *)
(** * Facts on dictionaries *)

Module DictFacts.

Section Dict.

Context {V : Type}.

Lemma dict_set_keys (d : list (string * V)) (k : string) (v : V) (k' : string) :
  In k' (map fst (dict_set d k v)) <-> k' = k \/ In k' (map fst d).
Proof.
  induction d as [|[k0 v0] d IH]; simpl.
  - intuition congruence.
  - destruct (String.eqb k0 k) eqn:E; simpl.
    + apply String.eqb_eq in E. subst. intuition congruence.
    + rewrite IH. tauto.
Qed.

Lemma dict_set_nodup (d : list (string * V)) (k : string) (v : V) :
  NoDup (map fst d) -> NoDup (map fst (dict_set d k v)).
Proof.
  induction d as [|[k0 v0] d IH]; simpl; intros H.
  - constructor; [simpl; tauto | constructor].
  - destruct (String.eqb k0 k) eqn:E; simpl.
    + apply String.eqb_eq in E. now subst.
    + inversion H; subst. constructor; [|auto].
      rewrite dict_set_keys. intros [->|Hin]; [|contradiction].
      rewrite String.eqb_refl in E. discriminate.
Qed.

Lemma dict_set_values (P : V -> Prop) (d : list (string * V)) (k : string) (v : V) :
  Forall P (map snd d) -> P v -> Forall P (map snd (dict_set d k v)).
Proof.
  induction d as [|[k0 v0] d IH]; simpl; intros H Hv.
  - now constructor.
  - inversion H; subst.
    destruct (String.eqb k0 k); simpl; constructor; auto.
Qed.

Lemma dict_get_value (P : V -> Prop) (d : list (string * V)) (k : string) (default : V) :
  Forall P (map snd d) -> P default -> P (dict_get d k default).
Proof.
  induction d as [|[k0 v0] d IH]; simpl; intros H Hd; [exact Hd|].
  inversion H; subst. destruct (String.eqb k0 k); auto.
Qed.

(** [d[k] = v] and then [d.get(k)] gives [v]; the other keys keep
    their values. *)
Lemma dict_get_set_same (d : list (string * V)) (k : string) (v default : V) :
  dict_get (dict_set d k v) k default = v.
Proof.
  induction d as [|[k0 v0] d IH]; simpl.
  - now rewrite String.eqb_refl.
  - destruct (String.eqb k0 k) eqn:E; simpl.
    + now rewrite String.eqb_refl.
    + now rewrite E.
Qed.

Lemma dict_get_set_other (d : list (string * V)) (k k' : string) (v default : V) :
  k' <> k -> dict_get (dict_set d k' v) k default = dict_get d k default.
Proof.
  intros Hne. induction d as [|[k0 v0] d IH]; simpl.
  - destruct (String.eqb k' k) eqn:E; [|reflexivity].
    apply String.eqb_eq in E. contradiction.
  - destruct (String.eqb k0 k') eqn:E; simpl.
    + apply String.eqb_eq in E. subst k0.
      destruct (String.eqb k' k) eqn:E'; [|reflexivity].
      apply String.eqb_eq in E'. contradiction.
    + now rewrite IH.
Qed.

End Dict.

Lemma items_names (d : list (string * float)) :
  map food (map (fun '(fd, q) => {| food := fd; item_quantity := q |}) d) = map fst d.
Proof.
  induction d as [|[k v] d IH]; [reflexivity|]. simpl. now rewrite IH.
Qed.

Lemma items_quantities (d : list (string * float)) :
  map item_quantity (map (fun '(fd, q) => {| food := fd; item_quantity := q |}) d)
  = map snd d.
Proof.
  induction d as [|[k v] d IH]; [reflexivity|]. simpl. now rewrite IH.
Qed.

End DictFacts.

(* ------------------------------------------------------------------ *)
(** * Facts on quantities that are at least zero *)

Module OrderFacts.

Lemma above_at_least_zero (a q : float) :
  at_least_zero a -> (a <? q) = true -> at_least_zero q.
Proof.
  unfold at_least_zero. rewrite !leb_spec, ltb_spec, Prim2SF_zero.
  destruct (Prim2SF a) as [sa|sa| |sa ma ea], (Prim2SF q) as [sq|sq| |sq mq eq];
    try destruct sa; try destruct sq; cbn; intros; try reflexivity; try discriminate.
Qed.

Lemma max2_at_least_zero (a q : float) :
  at_least_zero a -> at_least_zero (max2 a q).
Proof.
  intros Ha. unfold max2. destruct (a <? q) eqn:E; [|exact Ha].
  exact (above_at_least_zero a q Ha E).
Qed.

Lemma at_least_zero_not_negative (x : float) : at_least_zero x -> not_negative x.
Proof.
  unfold at_least_zero, not_negative. rewrite leb_spec, ltb_spec, Prim2SF_zero.
  destruct (Prim2SF x) as [s|s| |s m e]; try destruct s; cbn; intros;
    try reflexivity; try discriminate.
Qed.

End OrderFacts.

(* ------------------------------------------------------------------ *)
(** * Ingredient classification and the names shown to the user *)

Import TextFacts DictFacts OrderFacts.

Section ClassifierFacts.

(** X1: [classify_ingredients] splits the list without losing,
    repeating or reordering an ingredient: the main ingredients followed
    by the secondary ones are a permutation of the input, and an
    ingredient is secondary exactly when its lower-cased text holds a
    secondary keyword and no main keyword (so "butter chicken" is a
    main ingredient and an ingredient without any keyword is one too). *)
Theorem classify_ingredients_partitions (ing_list : list string) :
  let '(main_ings, sub_ings) := classify_ingredients ing_list in
  Permutation (main_ings ++ sub_ings) ing_list
  /\ (List.length main_ings + List.length sub_ings)%nat = List.length ing_list
  /\ (forall ing, In ing sub_ings <->
        In ing ing_list
        /\ any_in sub_keywords (lower ing) = true
        /\ any_in main_keywords (lower ing) = false).
Proof.
  unfold classify_ingredients.
  repeat split.
  - induction ing_list as [|ing l IH]; [constructor|].
    simpl. destruct (is_main ing); simpl.
    + now constructor.
    + symmetry. apply Permutation_cons_app. now symmetry.
  - rewrite <- length_app. apply Permutation_length.
    induction ing_list as [|ing l IH]; [constructor|].
    simpl. destruct (is_main ing); simpl.
    + now constructor.
    + symmetry. apply Permutation_cons_app. now symmetry.
  - apply filter_In in H. tauto.
  - apply filter_In in H. destruct H as [_ H].
    apply negb_true_iff in H. unfold is_main in H.
    apply orb_false_iff in H. destruct H as [_ H].
    now apply negb_false_iff in H.
  - apply filter_In in H. destruct H as [_ H].
    apply negb_true_iff in H. unfold is_main in H.
    apply orb_false_iff in H. now destruct H as [H _].
  - intros (Hin & Hs & Hm). apply filter_In. split; [exact Hin|].
    apply negb_true_iff. unfold is_main.
    unfold any_in in Hs, Hm. now rewrite Hm, Hs.
Qed.

(** X2: the name the interface shows for an ingredient text
    ([strip_quantity]) is, up to case, the food name
    [parse_ingredient] resolves: lower-casing the one gives the other
    stripped of blanks; and [separate_main_sub] keeps one name per
    ingredient. *)
Theorem strip_quantity_agrees_with_parse_ingredient :
  (forall ing_str,
      lower (strip_quantity ing_str) = strip (snd (parse_ingredient ing_str)))
  /\ (forall ingredients,
        (List.length (fst (separate_main_sub ingredients))
         + List.length (snd (separate_main_sub ingredients)))%nat
        = List.length ingredients).
Proof.
  split.
  - intros ing_str. unfold strip_quantity, parse_ingredient.
    destruct (ingredient_pattern (strip ing_str)) as [[[g1 g2] g3]|]; simpl.
    + now rewrite strip_idem, strip_lower.
    + apply strip_lower.
  - intros ingredients. unfold separate_main_sub, classify_ingredients. simpl.
    rewrite !length_map.
    induction ingredients as [|ing l IH]; [reflexivity|].
    simpl. destruct (is_main ing); simpl; lia.
Qed.

(** X3: a text that holds a dish name is itself taken for a dish:
    [is_probably_dish] only ever looks for a blank or a keyword inside
    the lower-cased text, so it is preserved by embedding the name in a
    longer one, and it does not depend on case. *)
Theorem is_probably_dish_is_monotone (inner outer : string) :
  contains inner outer = true ->
  is_probably_dish inner = true ->
  is_probably_dish outer = true /\ is_probably_dish (lower outer) = true.
Proof.
  intros Hc Hd. apply contains_lower in Hc.
  assert (H : is_probably_dish outer = true).
  { unfold is_probably_dish in *.
    destruct (contains " " (lower inner)) eqn:Hsp.
    - now rewrite (contains_trans _ _ _ Hsp Hc).
    - destruct (contains " " (lower outer)); [reflexivity|].
      apply existsb_exists in Hd. destruct Hd as (kw & Hin & Hkw).
      apply existsb_exists. exists kw. split; [exact Hin|].
      exact (contains_trans _ _ _ Hkw Hc). }
  split; [exact H|].
  unfold is_probably_dish in *. now rewrite lower_idem.
Qed.

(** X4: [clean_entity_text] leaves a one-word entity alone: when the
    lower-cased, stripped text holds no blank, no time marker is
    removed, so a text that is just a time marker (such as "today")
    comes back unchanged. *)
Theorem clean_entity_text_keeps_single_words (text : string) :
  contains " " (strip (lower text)) = false ->
  clean_entity_text text = strip (lower text).
Proof.
  intros Hsp. unfold clean_entity_text.
  assert (Hstep : forall marker, clean_marker (strip (lower text)) marker = strip (lower text)).
  { intros marker. unfold clean_marker.
    destruct (endswith (strip (lower text)) (" " ++ marker)) eqn:He.
    { apply endswith_app in He. destruct He as [pre He].
      assert (Hc : contains " " (strip (lower text)) = true).
      { apply contains_app. exists pre, marker. exact He. }
      congruence. }
    destruct (startswith (strip (lower text)) (marker ++ " ")) eqn:Hs; [|reflexivity].
    unfold startswith in Hs. apply prefix_app in Hs. destruct Hs as [s Hs].
    assert (Hc : contains " " (strip (lower text)) = true).
    { apply contains_app. exists marker, s. rewrite Hs. now rewrite append_assoc. }
    congruence. }
  induction time_markers as [|m l IH]; [reflexivity|].
  simpl. now rewrite Hstep.
Qed.

End ClassifierFacts.

(* ------------------------------------------------------------------ *)
(** * Merging and de-duplicating extracted foods *)

Section MergeFacts.

Lemma merge_fold (l : list FoodItem) :
  forall d : list (string * float),
    NoDup (map fst d) -> Forall at_least_zero (map snd d) ->
    let d' := fold_left merge_one l d in
    NoDup (map fst d')
    /\ Forall at_least_zero (map snd d')
    /\ forall k, In k (map fst d') <-> In k (map fst d) \/ In k (map merge_key l).
Proof.
  induction l as [|x l IH]; intros d Hnd Hv; simpl.
  - repeat split; auto. tauto.
  - assert (Hk : at_least_zero (max2 (dict_get d (merge_key x) 0) (item_quantity x))).
    { apply max2_at_least_zero. now apply dict_get_value. }
    destruct (IH (merge_one d x)) as (H1 & H2 & H3).
    + now apply dict_set_nodup.
    + now apply dict_set_values.
    + repeat split; auto.
      * intros H. apply H3 in H. unfold merge_one in H.
        rewrite dict_set_keys in H. fold (merge_key x) in H. intuition.
      * intros H. apply H3. unfold merge_one. rewrite dict_set_keys.
        fold (merge_key x). intuition.
Qed.

(** X5: [_merge_ner_llm] returns each food once: the names of the
    result are pairwise distinct, and they are exactly the stripped,
    lower-cased names of the foods of the two lists. *)
Theorem merge_names_are_distinct (ner_foods llm_foods : list FoodItem) :
  let merged := _merge_ner_llm ner_foods llm_foods in
  NoDup (map food merged)
  /\ forall name, In name (map food merged)
                  <-> In name (map merge_key (ner_foods ++ llm_foods)).
Proof.
  unfold _merge_ner_llm. rewrite <- fold_left_app, items_names.
  destruct (merge_fold (ner_foods ++ llm_foods) [] (NoDup_nil _) (Forall_nil _))
    as (H1 & _ & H3).
  split; [exact H1|].
  intros name. rewrite H3. simpl. tauto.
Qed.

(** X6: no quantity [_merge_ner_llm] returns is negative or NaN: each
    one is the maximum of zero and the quantities reported, so a
    negative or NaN quantity of an extractor is replaced by zero or by
    another report of the same food. *)
Theorem merge_quantities_are_at_least_zero (ner_foods llm_foods : list FoodItem) :
  Forall (fun f => at_least_zero (item_quantity f))
         (_merge_ner_llm ner_foods llm_foods).
Proof.
  apply Forall_map with (f := item_quantity) (P := at_least_zero).
  unfold _merge_ner_llm. rewrite <- fold_left_app, items_quantities.
  now destruct (merge_fold (ner_foods ++ llm_foods) [] (NoDup_nil _) (Forall_nil _))
    as (_ & H2 & _).
Qed.

Import NERFoodExtractor.

Lemma keep_highest_fold (l : list FoodItem) :
  forall d : list (string * float),
    NoDup (map fst d) ->
    let d' := fold_left keep_highest l d in
    NoDup (map fst d')
    /\ forall k, In k (map fst d')
                 <-> In k (map fst d)
                     \/ (In k (map food l) /\ mem k time_markers = false).
Proof.
  induction l as [|x l IH]; intros d Hnd; cbn [fold_left map In].
  - split; [exact Hnd|]. tauto.
  - destruct (IH (keep_highest d x)) as (H1 & H3).
    { unfold keep_highest. destruct (mem (food x) time_markers); [exact Hnd|].
      destruct (dict_has d (food x)); now apply dict_set_nodup. }
    split; [exact H1|]. intros k. rewrite H3.
    unfold keep_highest. destruct (mem (food x) time_markers) eqn:Hm.
    + split; [tauto|]. intros [H|[[H|H] Hk]]; [tauto| |tauto].
      subst k. congruence.
    + assert (Hkeys : forall v, In k (map fst (dict_set d (food x) v))
                                <-> k = food x \/ In k (map fst d))
        by (intros v; apply dict_set_keys).
      destruct (dict_has d (food x)); rewrite Hkeys; split.
      * intros [[->|H]|H]; tauto.
      * intros [H|[[H|H] Hk]]; auto.
      * intros [[->|H]|H]; tauto.
      * intros [H|[[H|H] Hk]]; auto.
Qed.

(** X7: the last loop of [extract_food_with_ner] returns each food
    once and never a bare time marker: the names of the result are
    pairwise distinct and are exactly the names of the entities that
    are not in the list of time markers. *)
Theorem remove_duplicates_names (food_entities : list FoodItem) :
  let results := remove_duplicates food_entities in
  NoDup (map food results)
  /\ forall name, In name (map food results)
                  <-> In name (map food food_entities)
                      /\ mem name time_markers = false.
Proof.
  unfold remove_duplicates. rewrite items_names.
  destruct (keep_highest_fold food_entities [] (NoDup_nil _)) as (H1 & H3).
  split; [exact H1|].
  intros name. rewrite H3. simpl. tauto.
Qed.

End MergeFacts.

(* ------------------------------------------------------------------ *)
(** * The USDA lookup *)

Section UsdaFacts.

Import USDAFoodLookup.

(** The nutrient names and the keys they fill. *)
Local Abbreviation slots :=
  [("Energy", "calories"); ("Protein", "protein");
   ("Total lipid (fat)", "fat"); ("Carbohydrate, by difference", "carbs")].

Lemma note_nutrient_get (d : list (string * float)) (x : FoodNutrient)
    (name key : string) :
  In (name, key) slots ->
  dict_get (note_nutrient d x) key 0
  = if String.eqb (nutrientName x) name then value x else dict_get d key 0.
Proof.
  intros Hin. unfold note_nutrient.
  repeat (destruct Hin as [Hin|Hin]; [inversion Hin; subst; clear Hin|]);
    try contradiction;
    repeat match goal with
           | |- context [String.eqb (nutrientName x) ?s] =>
               destruct (String.eqb (nutrientName x) s) eqn:?
           end;
    repeat match goal with
           | H : String.eqb _ _ = true |- _ => apply String.eqb_eq in H
           end;
    try congruence;
    try apply dict_get_set_same;
    try (apply dict_get_set_other; discriminate);
    reflexivity.
Qed.

Lemma note_nutrients_get (l : list FoodNutrient) (name key : string) :
  In (name, key) slots ->
  forall d,
    (forall m, In m l -> nutrientName m <> name) ->
    dict_get (fold_left note_nutrient l d) key 0 = dict_get d key 0.
Proof.
  intros Hin. induction l as [|x l IH]; intros d Hno; [reflexivity|].
  simpl. rewrite IH by (intros m Hm; apply Hno; now right).
  rewrite (note_nutrient_get d x name key Hin).
  destruct (String.eqb (nutrientName x) name) eqn:E; [|reflexivity].
  apply String.eqb_eq in E. exfalso. apply (Hno x); [now left | exact E].
Qed.

Lemma figure_of_slot (food_data : FoodData) (name key : string) :
  In (name, key) slots ->
  figure_of name (snd (_extract_nutrition_info food_data))
  = dict_get (fold_left note_nutrient (foodNutrients food_data) []) key 0.
Proof.
  intros Hin.
  repeat (destruct Hin as [Hin|Hin]; [inversion Hin; subst; reflexivity|]).
  contradiction.
Qed.

Lemma usda_name_slot (name : string) :
  In name usda_names -> exists key, In (name, key) slots.
Proof.
  intros Hin.
  repeat (destruct Hin as [Hin|Hin]; [subst; eexists; simpl; eauto 6|]).
  contradiction.
Qed.

(** X8: [_extract_nutrition_info] reads each of the four nutrients
    ("Energy", "Protein", "Total lipid (fat)", "Carbohydrate, by
    difference") from the last entry of ["foodNutrients"] that bears
    its name, and reports zero for a nutrient that is not listed: when
    energy is listed twice, the later value is the calories. *)
Theorem extract_nutrition_info_last_entry_wins
    (food_data : FoodData) (name : string) :
  In name usda_names ->
  (forall pre x post,
      foodNutrients food_data = (pre ++ x :: post)%list ->
      nutrientName x = name ->
      (forall m, In m post -> nutrientName m <> name) ->
      figure_of name (snd (_extract_nutrition_info food_data)) = value x)
  /\ ((forall m, In m (foodNutrients food_data) -> nutrientName m <> name) ->
      figure_of name (snd (_extract_nutrition_info food_data)) = 0).
Proof.
  intros Hname. destruct (usda_name_slot name Hname) as [key Hslot].
  rewrite (figure_of_slot food_data name key Hslot). split.
  - intros pre x post Heq Hx Hpost.
    rewrite Heq, fold_left_app. simpl.
    rewrite (note_nutrients_get post name key Hslot _ Hpost).
    rewrite (note_nutrient_get _ x name key Hslot).
    now rewrite Hx, String.eqb_refl.
  - intros Hno. now rewrite (note_nutrients_get _ name key Hslot [] Hno).
Qed.

Lemma noted_not_negative (l : list FoodNutrient) :
  Forall (fun x => not_negative (value x)) l ->
  forall d, Forall not_negative (map snd d) ->
            Forall not_negative (map snd (fold_left note_nutrient l d)).
Proof.
  induction 1 as [|x l Hx Hl IH]; intros d Hd; [exact Hd|].
  simpl. apply IH. unfold note_nutrient.
  repeat match goal with
         | |- context [String.eqb (nutrientName x) ?s] =>
             destruct (String.eqb (nutrientName x) s)
         end; try exact Hd; now apply dict_set_values.
Qed.

(** X9: [search_food] answers only on status 200 with a non-empty
    list of foods, and then from the first food alone; when that food
    lists no negative value, none of the four figures handed to the
    pipeline is negative (a nutrient that is missing counts for zero),
    which is what [get_food_nutrition] needs of its lookup. *)
Theorem usda_figures_are_not_negative (requests_get : string -> Response) :
  (forall name first rest,
      foods (requests_get name) = Some (first :: rest) ->
      Forall (fun x => not_negative (value x)) (foodNutrients first)) ->
  lookup_not_negative (figures requests_get)
  /\ forall name u,
      figures requests_get name = Some u ->
      status_code (requests_get name) = 200%Z
      /\ (exists first rest,
             foods (requests_get name) = Some (first :: rest)
             /\ u = snd (_extract_nutrition_info first))
      /\ all_not_negative u.
Proof.
  intros Hvalues.
  assert (Hall : forall name u,
             figures requests_get name = Some u ->
             status_code (requests_get name) = 200%Z
             /\ (exists first rest,
                    foods (requests_get name) = Some (first :: rest)
                    /\ u = snd (_extract_nutrition_info first))
             /\ all_not_negative u).
  { intros name u. unfold figures, search_food.
    destruct (Z.eqb (status_code (requests_get name)) 200) eqn:Hs; [|discriminate].
    destruct (foods (requests_get name)) as [[|first rest]|] eqn:Hf; try discriminate.
    simpl. intros H. inversion H; subst u. clear H.
    split; [now apply Z.eqb_eq|]. split; [now exists first, rest|].
    pose proof (noted_not_negative _ (Hvalues name first rest Hf) [] (Forall_nil _)) as Hd.
    repeat split; simpl; apply dict_get_value; auto; reflexivity. }
  split; [|exact Hall].
  intros f u Hu. destruct (Hall f u Hu) as (_ & _ & (_ & Hp & Hf & Hc)). auto.
Qed.

End UsdaFacts.

(* ------------------------------------------------------------------ *)
(** * Quantities read by the NER extractor *)

Section QuantityFacts.

Import NERFoodExtractor.

Lemma digit_is_not_dot (c : ascii) : is_digit c = true -> Ascii.eqb c "." = false.
Proof.
  destruct c as [[] [] [] [] [] [] [] []]; intros H; try reflexivity; discriminate H.
Qed.

Lemma span_digits_spec (s : string) :
  forall d r, span_digits s = (d, r) -> all_digits d = true /\ s = d ++ r.
Proof.
  induction s as [|c s IH]; intros d r; simpl.
  - intros H. inversion H. now split.
  - destruct (is_digit c) eqn:Hc.
    + destruct (span_digits s) as [d' r'] eqn:E. intros H. inversion H; subst.
      destruct (IH d' r eq_refl) as [Hd Hs]. simpl. rewrite Hc, Hd. split; [reflexivity|].
      now rewrite Hs at 1.
    + intros H. inversion H. now split.
Qed.

Lemma span_digits_app (n r : string) :
  all_digits n = true ->
  match r with String c _ => is_digit c | EmptyString => false end = false ->
  span_digits (n ++ r) = (n, r).
Proof.
  intros Hn Hr. induction n as [|c n IH]; simpl.
  - destruct r as [|c r]; [reflexivity|]. simpl. now rewrite Hr.
  - simpl in Hn. apply andb_true_iff in Hn. destruct Hn as [Hc Hn].
    now rewrite Hc, (IH Hn).
Qed.

Lemma split_digits (d : string) :
  all_digits d = true ->
  forall cur r, split_char_aux "." cur (d ++ r) = split_char_aux "." (cur ++ d) r.
Proof.
  induction d as [|c d IH]; intros Hd cur r.
  - now rewrite append_nil_r.
  - simpl in Hd. apply andb_true_iff in Hd. destruct Hd as [Hc Hd].
    simpl. rewrite (digit_is_not_dot c Hc), (IH Hd), append_assoc. reflexivity.
Qed.

Lemma float_of_digits (i : string) :
  all_digits i = true -> i <> "" -> exists v, float_of_string i = Ok v.
Proof.
  intros Hi Hne. unfold float_of_string, split_char.
  replace (split_char_aux "." "" i) with (split_char_aux "." "" (i ++ ""))
    by now rewrite append_nil_r.
  rewrite (split_digits i Hi). simpl.
  rewrite Hi. destruct (String.eqb i "") eqn:E.
  - apply String.eqb_eq in E. contradiction.
  - simpl. eauto.
Qed.

Lemma float_of_decimal (i f : string) :
  all_digits i = true -> all_digits f = true -> i <> "" ->
  exists v, float_of_string (i ++ "." ++ f) = Ok v.
Proof.
  intros Hi Hf Hne. unfold float_of_string, split_char.
  rewrite (split_digits i Hi). simpl.
  replace (split_char_aux "." "" f) with (split_char_aux "." "" (f ++ ""))
    by now rewrite append_nil_r.
  rewrite (split_digits f Hf). simpl.
  rewrite Hi, Hf. destruct (String.eqb (i ++ f) "") eqn:E.
  - apply String.eqb_eq in E. destruct i; [contradiction | discriminate].
  - simpl. eauto.
Qed.

Lemma number_at_float (s m : string) :
  number_at s = Some m -> exists v, float_of_string m = Ok v.
Proof.
  unfold number_at.
  destruct (span_digits s) as [i r] eqn:E.
  destruct (span_digits_spec s i r E) as [Hi _].
  destruct i as [|c i]; [discriminate|].
  assert (Hplain : exists v, float_of_string (String c i) = Ok v)
    by (apply float_of_digits; [exact Hi | discriminate]).
  destruct r as [|c' r].
  - intros H. inversion H; subst. exact Hplain.
  - destruct (Ascii.eqb c' ".").
    + destruct (span_digits r) as [f r'] eqn:E'.
      destruct (span_digits_spec r f r' E') as [Hf _].
      destruct f as [|c'' f]; intros H; inversion H; subst; [exact Hplain|].
      apply (float_of_decimal (String c i) (String c'' f)); auto. discriminate.
    + intros H. inversion H; subst. exact Hplain.
Qed.

Lemma re_search_number_float (s m : string) :
  re_search_number s = Some m -> exists v, float_of_string m = Ok v.
Proof.
  induction s as [|c s IH]; cbn [re_search_number].
  - destruct (number_at "") eqn:E; [|discriminate].
    intros H. inversion H; subst. exact (number_at_float _ _ E).
  - destruct (number_at (String c s)) eqn:E; [|exact IH].
    intros H. inversion H; subst. exact (number_at_float _ _ E).
Qed.

Lemma no_digit_no_number (s : string) :
  has_digit s = false -> re_search_number s = None.
Proof.
  induction s as [|c s IH]; [reflexivity|].
  simpl has_digit. intros H. apply orb_false_iff in H. destruct H as [Hc Hs].
  cbn [re_search_number]. unfold number_at. simpl span_digits. rewrite Hc.
  exact (IH Hs).
Qed.

Lemma float_of_word_values (s : string) (v : float) :
  float_of_word s = Ok v -> v = infinity \/ v = neg_infinity \/ v = nan.
Proof.
  unfold float_of_word.
  match goal with
  | |- context [let '(negative, body) := ?m in _] =>
      destruct m as [negative body]
  end.
  destruct (String.eqb body "inf" || String.eqb body "infinity").
  - destruct negative; intros H; inversion H; auto.
  - destruct (String.eqb body "nan"); intros H; inversion H; auto.
Qed.

Lemma quantity_without_number (s : string) :
  re_search_number s = None ->
  _parse_quantity_str s = Ok 1 \/ _parse_quantity_str s = Ok nan.
Proof.
  intros Hs. unfold _parse_quantity_str. rewrite Hs.
  destruct (contains "/" s); [|now left].
  destruct (split_char "/" s) as [|p0 [|p1 ps]]; try now left.
  destruct (float_of_word p0) as [n|e] eqn:E0; [|now left].
  destruct (float_of_word p1) as [d|e] eqn:E1; [|now left].
  apply float_of_word_values in E0, E1. cbn [bind].
  destruct E0 as [->|[->| ->]], E1 as [->|[->| ->]]; now right.
Qed.

Lemma parse_quantity_str_ok (s : string) :
  exists v, _parse_quantity_str s = Ok v /\ not_negative v.
Proof.
  destruct (re_search_number s) as [m|] eqn:E.
  - destruct (re_search_number_float s m E) as [v Hv].
    exists v. unfold _parse_quantity_str. rewrite E. split; [exact Hv|].
    exact (float_of_string_not_negative m v Hv).
  - destruct (quantity_without_number s E) as [H|H]; rewrite H;
      eexists; split; reflexivity.
Qed.

(** X10: [_parse_quantity_str] never raises and never returns a
    negative number.  The fraction branch is reached only by a text
    without a digit, where it can yield nothing but [1.0] or NaN (from
    spellings of infinity and NaN); a fraction written in digits is read
    as its numerator: "1/2 cup" gives [1.0]. *)
Theorem parse_quantity_str_reads_the_first_number :
  (forall s, exists v, _parse_quantity_str s = Ok v /\ not_negative v)
  /\ (forall s, has_digit s = false ->
                _parse_quantity_str s = Ok 1 \/ _parse_quantity_str s = Ok nan)
  /\ (forall n rest, all_digits n = true -> n <> "" ->
                     _parse_quantity_str (n ++ "/" ++ rest) = float_of_string n).
Proof.
  split; [|split].
  - exact parse_quantity_str_ok.
  - intros s Hs. apply quantity_without_number. now apply no_digit_no_number.
  - intros n rest Hn Hne. unfold _parse_quantity_str.
    assert (E : re_search_number (n ++ "/" ++ rest) = Some n).
    { destruct n as [|c n]; [contradiction|].
      change (String c n ++ "/" ++ rest) with (String c (n ++ String "/" rest)).
      cbn [re_search_number].
      change (String c (n ++ String "/" rest)) with (String c n ++ String "/" rest).
      unfold number_at. rewrite (span_digits_app (String c n) (String "/" rest) Hn eq_refl).
      reflexivity. }
    now rewrite E.
Qed.

Lemma pair_entities_spec (ents : list (string * string)) :
  forall (current_quantity : option float) (food_entities : list FoodItem),
    match current_quantity with Some q => not_negative q | None => True end ->
    exists added,
      pair_entities ents current_quantity food_entities
      = Ok (food_entities ++ added)%list
      /\ Forall (fun f => (2 <= String.length (food f))%nat
                          /\ not_negative (item_quantity f)) added
      /\ (List.length added
          <= List.length (filter (fun e => String.eqb (fst e) "FOOD") ents))%nat.
Proof.
  induction ents as [|[label_ text] rest IH]; intros cq fe Hcq.
  - exists []. cbn [pair_entities]. rewrite app_nil_r.
    split; [reflexivity|]. split; [constructor|]. cbn [filter List.length]. lia.
  - cbn [pair_entities filter fst].
    destruct (String.eqb label_ "QUANTITY") eqn:Hq.
    + destruct (parse_quantity_str_ok text) as (q & Hparse & Hnn).
      rewrite Hparse. cbn [bind].
      destruct (IH (Some q) fe Hnn) as (added & E & Hall & Hlen).
      exists added. split; [exact E|]. split; [exact Hall|].
      destruct (String.eqb label_ "FOOD"); cbn [List.length]; lia.
    + destruct (String.eqb label_ "FOOD") eqn:Hf.
      * remember (clean_entity_text text) as clean_food eqn:Hclean.
        destruct (Nat.ltb (String.length clean_food) 2) eqn:Hshort.
        { destruct (IH cq fe Hcq) as (added & E & Hall & Hlen).
          exists added. split; [exact E|]. split; [exact Hall|].
          cbn [List.length]. lia. }
        remember {| food := clean_food;
                    item_quantity := match cq with Some q => q | None => 1 end |}
          as item eqn:Hitem.
        destruct (IH None (fe ++ [item])%list I) as (added & E & Hall & Hlen).
        exists (item :: added). rewrite E, <- app_assoc.
        split; [reflexivity|]. split; [|cbn [List.length]; lia].
        constructor; [|exact Hall]. subst item. cbn [food item_quantity]. split.
        -- apply Nat.ltb_ge in Hshort. exact Hshort.
        -- destruct cq; [exact Hcq | reflexivity].
      * destruct (IH cq fe Hcq) as (added & E & Hall & Hlen).
        exists added. split; [exact E|]. split; [exact Hall|]. exact Hlen.
Qed.

(** X21: the first loop of [extract_food_with_ner] never raises; it
    yields at most one food per FOOD entity, each with a cleaned name
    of at least two characters and a quantity that is not negative.  A
    quantity is used once: of two foods that follow a QUANTITY entity,
    the first takes the number and the second gets 1. *)
Theorem pair_entities_uses_a_quantity_once (ents : list (string * string)) :
  (exists food_entities,
      pair_entities ents None [] = Ok food_entities
      /\ Forall (fun f => (2 <= String.length (food f))%nat
                          /\ not_negative (item_quantity f)) food_entities
      /\ (List.length food_entities
          <= List.length (filter (fun e => String.eqb (fst e) "FOOD") ents))%nat)
  /\ (forall quantity_text food1 food2 q,
        _parse_quantity_str quantity_text = Ok q ->
        (2 <= String.length (clean_entity_text food1))%nat ->
        (2 <= String.length (clean_entity_text food2))%nat ->
        pair_entities [("QUANTITY", quantity_text); ("FOOD", food1); ("FOOD", food2)]
          None []
        = Ok [ {| food := clean_entity_text food1; item_quantity := q |};
               {| food := clean_entity_text food2; item_quantity := 1 |} ]).
Proof.
  split.
  - destruct (pair_entities_spec ents None [] I) as (added & E & Hall & Hlen).
    exists added. rewrite E. split; [reflexivity|]. split; [exact Hall | exact Hlen].
  - intros quantity_text food1 food2 q Hq H1 H2.
    remember (clean_entity_text food1) as c1 eqn:Hc1.
    remember (clean_entity_text food2) as c2 eqn:Hc2.
    apply Nat.ltb_ge in H1, H2.
    cbn [pair_entities].
    change (String.eqb "QUANTITY" "QUANTITY") with true.
    change (String.eqb "FOOD" "QUANTITY") with false.
    change (String.eqb "FOOD" "FOOD") with true.
    cbv iota. rewrite Hq. cbn [bind].
    rewrite <- Hc1, H1. cbv iota. rewrite <- Hc2, H2. reflexivity.
Qed.

End QuantityFacts.

(* ------------------------------------------------------------------ *)
(** * Further facts on the resolver and on dishes *)

Lemma parse_quantity_not_negative (line : string) :
  not_negative (fst (fst (parse_ingredient line))).
Proof.
  unfold parse_ingredient.
  destruct (ingredient_pattern (strip line)) as [[[g1 g2] g3]|]; simpl.
  - apply sum_parts_not_negative. reflexivity.
  - reflexivity.
Qed.

Lemma dish_portion_not_negative (d : string) : not_negative (dish_portion d).
Proof.
  unfold dish_portion.
  repeat match goal with
         | |- not_negative (if ?c then _ else _) => destruct c
         end; reflexivity.
Qed.

Lemma upper_limit_not_negative (d : string) :
  not_negative (reasonable_upper_limit d).
Proof.
  unfold reasonable_upper_limit.
  repeat match goal with
         | |- not_negative (if ?c then _ else _) => destruct c
         end; reflexivity.
Qed.

Lemma nutr_add_not_negative (t n : Nutrition) :
  all_not_negative t -> all_not_negative n -> all_not_negative (nutr_add t n).
Proof.
  intros (H1 & H2 & H3 & H4) (K1 & K2 & K3 & K4).
  repeat split; simpl; now apply add_not_negative.
Qed.

Lemma nutr_mul_not_negative (n : Nutrition) (a : float) :
  all_not_negative n -> not_negative a -> all_not_negative (nutr_mul n a).
Proof.
  intros (H1 & H2 & H3 & H4) Ha.
  repeat split; simpl; now apply mul_not_negative.
Qed.

Lemma rounded_not_negative (n : Nutrition) :
  all_not_negative n -> all_not_negative (rounded n).
Proof.
  intros (H1 & H2 & H3 & H4).
  repeat split; simpl; now apply round2_not_negative.
Qed.

Lemma sum_not_negative (ns : list Nutrition) :
  Forall all_not_negative ns ->
  forall t, all_not_negative t -> all_not_negative (fold_left nutr_add ns t).
Proof.
  induction 1 as [|n ns Hn Hns IH]; intros t Ht; [exact Ht|].
  simpl. apply IH. now apply nutr_add_not_negative.
Qed.

Lemma zero_nutrition_not_negative : all_not_negative (nutr 0 0 0 0).
Proof. repeat split; reflexivity. Qed.

(** X20: [convert_to_grams] does not depend on the case of the unit
    and never turns a quantity that is not negative into a negative
    number of grams. *)
Theorem convert_to_grams_ignores_case (qty : float) (u : string) :
  convert_to_grams qty (lower u) = convert_to_grams qty u
  /\ (not_negative qty -> not_negative (convert_to_grams qty u)).
Proof.
  split.
  - unfold convert_to_grams. now rewrite lower_idem.
  - apply convert_to_grams_not_negative.
Qed.

Section ResolverExtras.

Variable search_food : string -> option Nutrition.

Local Abbreviation resolve := (get_food_nutrition search_food).
Local Abbreviation analyze_list := (_analyze_ingredients_list search_food).

Lemma resolved_not_negative (name : string) (amount : float) (u : string)
    (n : Nutrition) :
  not_negative amount -> lookup_not_negative search_food ->
  resolve name amount u = Ok n -> all_not_negative n.
Proof.
  intros Ha Hl Hn. rewrite get_food_nutrition_eq in Hn.
  pose proof (factor_not_negative amount u Ha) as Hfac.
  destruct (mem _ ice_aliases).
  { inversion Hn; subst. repeat split; reflexivity. }
  destruct (find _ standard_nutrition) as [[k v]|] eqn:Hfind.
  { inversion Hn; subst. apply scaled_not_negative.
    - exact (standard_entry_not_negative _ _ _ Hfind).
    - now apply standard_factor_not_negative. }
  destruct (search_food _) as [usda|] eqn:Hu.
  { destruct (Hl _ _ Hu) as (Hp & Hf & Hh).
    exact (from_usda_not_negative search_food _ _ _ _ Hfac Hp Hf Hh Hn). }
  inversion Hn; subst. now apply generic_not_negative.
Qed.

(** X11: [get_food_nutrition] sees a food name only through its
    lower-cased, stripped form: two names with the same such form get
    the same answer for every quantity and unit, and a name can be
    replaced by that form. *)
Theorem get_food_nutrition_ignores_case_and_blanks :
  (forall name amount u,
      resolve (strip (lower name)) amount u = resolve name amount u)
  /\ (forall name1 name2 amount u,
        strip (lower name1) = strip (lower name2) ->
        resolve name1 amount u = resolve name2 amount u).
Proof.
  split.
  - intros name amount u. rewrite !get_food_nutrition_eq. cbv zeta.
    now rewrite normal_form_idem.
  - intros name1 name2 amount u H. rewrite !get_food_nutrition_eq. cbv zeta.
    now rewrite H.
Qed.

(** X12: grams and millilitres are the same unit to
    [get_food_nutrition], and for a food that is neither of the cola
    family nor mac and cheese a quantity without a unit is a count of
    100 g servings: [q] without a unit resolves as [q * 100] grams. *)
Theorem no_unit_means_servings_of_100_grams (name : string) (amount : float) :
  let fd := strip (lower name) in
  resolve name amount "g" = resolve name amount "ml"
  /\ (cola_family fd = false -> mac_and_cheese fd = false ->
      resolve name amount "" = resolve name (amount * 100) "g").
Proof.
  intros fd. rewrite !get_food_nutrition_eq. cbv zeta. fold fd. split.
  - reflexivity.
  - intros Hcola Hmac.
    change (grams_of amount "") with (amount * 100).
    change (grams_of (amount * 100) "g") with (amount * 100).
    unfold standard_factor.
    unfold cola_family in Hcola. unfold mac_and_cheese in Hmac.
    now rewrite Hcola, Hmac.
Qed.

(** X13: a food that neither the table nor the lookup knows is never
    counted for more than eight servings: once the amount exceeds 800 g
    the estimate is that of eight servings, whatever the amount. *)
Theorem unknown_food_is_capped_at_eight_servings
    (name : string) (amount : float) (u : string) :
  let fd := strip (lower name) in
  mem fd ice_aliases = false ->
  find (key_matches fd) standard_nutrition = None ->
  search_food fd = None ->
  (8 <? grams_of amount u / 100) = true ->
  resolve name amount u = Ok (_generic_nutrition_estimate fd 8)
  /\ resolve name amount u = resolve name 8 "".
Proof.
  intros fd Hice Hfind Hu Hover.
  rewrite !get_food_nutrition_eq. cbv zeta. fold fd.
  rewrite Hice, Hfind, Hu.
  change (grams_of 8 "" / 100) with 8.
  assert (H : _generic_nutrition_estimate fd (grams_of amount u / 100)
              = _generic_nutrition_estimate fd 8).
  { unfold _generic_nutrition_estimate, min2. now rewrite Hover. }
  now rewrite H.
Qed.

Lemma resolved_entries_not_negative (ing_list : list string)
    (ds : list IngredientRecord) :
  lookup_not_negative search_food ->
  Forall2 (resolves search_food) ing_list ds ->
  Forall (fun d => all_not_negative (nutrition d) /\ not_negative (quantity d)) ds.
Proof.
  intros Hl. induction 1 as [|ing d l ds Hd Hrest IH]; constructor; [|exact IH].
  unfold resolves in Hd. pose proof (parse_quantity_not_negative ing) as Hq.
  destruct (parse_ingredient ing) as [[qty u] fname]. simpl in Hq.
  destruct Hd as (Hn & _ & Hqd & _). split.
  - exact (resolved_not_negative _ _ _ _ Hq Hl Hn).
  - rewrite Hqd. now apply round2_not_negative.
Qed.

(** X14: as long as the lookup returns (nothing, or a record),
    [_analyze_ingredients_list] raises nothing of its own, whatever the
    ingredient texts and the dish name: the only division, by the raw
    calorie total, happens when that total exceeds twice a positive
    ceiling.  The result bears the dish name as given and has a single
    entry when the name matches a table key and one entry per
    ingredient otherwise.  (An exception raised inside the lookup, whose
    request is not wrapped, is outside this statement.) *)
Theorem analyze_ingredients_list_always_answers
    (ing_list : list string) (name : string) :
  exists r,
    analyze_list ing_list name = Ok r
    /\ dish_name r = name
    /\ List.length (ingredients r)
       = match find (key_matches (lower name)) standard_nutrition with
         | Some _ => 1%nat
         | None => List.length ing_list
         end.
Proof.
  unfold _analyze_ingredients_list.
  destruct (find (key_matches (lower name)) standard_nutrition) as [[k v]|].
  - eexists. repeat split.
  - destruct (resolve_ingredients_spec search_food ing_list [] (nutr 0 0 0 0))
      as [ds [HF Heq]].
    rewrite Heq. cbn [bind app].
    pose proof (Forall2_length HF) as Hlen.
    destruct (upper_limit_constants _ (upper_limit_known search_food (lower name))) as [_ Hpos].
    destruct (reasonable_upper_limit (lower name) * 2 <? _) eqn:Hover.
    + unfold div. rewrite (above_not_zero _ _ Hover Hpos). cbn [bind].
      eexists. repeat split. simpl. now rewrite length_map.
    + eexists. repeat split. simpl. now symmetry.
Qed.

(** X15: when the lookup reports no negative protein, fat or
    carbohydrate, no figure of a dish analysis is negative: neither a
    field of the total, nor a field or the quantity of an entry of the
    breakdown.  (A quantity parsed from an ingredient text is never
    negative, so the proviso on the amount of [get_food_nutrition] is
    met inside a dish.) *)
Theorem dish_analysis_is_not_negative
    (ing_list : list string) (name : string) (r : DishAnalysis) :
  lookup_not_negative search_food ->
  analyze_list ing_list name = Ok r ->
  all_not_negative (total_nutrition r)
  /\ Forall (fun d => all_not_negative (nutrition d) /\ not_negative (quantity d))
            (ingredients r).
Proof.
  intros Hl. unfold _analyze_ingredients_list.
  destruct (find (key_matches (lower name)) standard_nutrition) as [[k v]|] eqn:Hfind.
  - intros H. inversion H; subst; clear H. simpl.
    assert (Hs : all_not_negative (scaled v (dish_portion (lower name)))).
    { apply scaled_not_negative.
      - exact (standard_entry_not_negative _ _ _ Hfind).
      - apply dish_portion_not_negative. }
    split; [exact Hs|]. constructor; [|constructor]. split; [exact Hs | reflexivity].
  - destruct (resolve_ingredients_spec search_food ing_list [] (nutr 0 0 0 0))
      as [ds [HF Heq]].
    rewrite Heq. cbn [bind app].
    pose proof (resolved_entries_not_negative ing_list ds Hl HF) as Hds.
    assert (Hsum : all_not_negative (fold_left nutr_add (map nutrition ds) (nutr 0 0 0 0))).
    { apply sum_not_negative; [|apply zero_nutrition_not_negative].
      apply Forall_map. eapply Forall_impl; [|exact Hds]. now intros d [Hd _]. }
    set (total := fold_left nutr_add (map nutrition ds) (nutr 0 0 0 0)) in *.
    pose proof (upper_limit_not_negative (lower name)) as Hlim.
    destruct (upper_limit_constants _ (upper_limit_known search_food (lower name))) as [_ Hpos].
    destruct (reasonable_upper_limit (lower name) * 2 <? calories total) eqn:Hover.
    + unfold div. rewrite (above_not_zero _ _ Hover Hpos). cbn [bind].
      intros H. inversion H; subst; clear H. simpl.
      destruct Hsum as (S1 & S2 & S3 & S4).
      assert (Hadj : not_negative (reasonable_upper_limit (lower name) / calories total)).
      { apply div_not_negative; auto. exact (above_not_zero _ _ Hover Hpos). }
      split.
      * repeat split; simpl; apply round2_not_negative; auto;
          now apply mul_not_negative.
      * apply Forall_map. eapply Forall_impl; [|exact Hds].
        intros d [Hd Hq]. simpl. split; [|exact Hq].
        now apply nutr_mul_not_negative.
    + intros H. inversion H; subst; clear H. simpl. split; [|exact Hds].
      exact (rounded_not_negative _ Hsum).
Qed.

End ResolverExtras.

(* ------------------------------------------------------------------ *)
(** * Further facts on the meal analyzer *)

Section RoutingFacts.

Variable search_recipe_in_db : string -> option (string * list string).
Variable generate_recipe_with_llm : string -> list string.

Local Abbreviation route :=
  (route_name search_recipe_in_db generate_recipe_with_llm).

Lemma route_fold (l : list string) :
  forall ds fs, exists ds' fs',
    fold_left route l (ds, fs) = ((ds ++ ds')%list, (fs ++ fs')%list)
    /\ (List.length ds' + List.length fs')%nat = List.length l
    /\ Forall (fun f => item_quantity f = 1 /\ In (food f) l) fs'
    /\ forall name, In name l -> is_probably_dish name = false ->
                    In (standalone name) fs'.
Proof.
  induction l as [|name l IH]; intros ds fs.
  - exists [], []. simpl. rewrite !app_nil_r. repeat split; auto.
  - cbn [fold_left]. rewrite route_name_eq.
    assert (Hstand : exists ds' fs',
               fold_left route l (ds, (fs ++ [standalone name])%list)
               = ((ds ++ ds')%list, (fs ++ fs')%list)
               /\ (List.length ds' + List.length fs')%nat = List.length (name :: l)
               /\ Forall (fun f => item_quantity f = 1 /\ In (food f) (name :: l)) fs'
               /\ forall n, In n (name :: l) -> is_probably_dish n = false ->
                            In (standalone n) fs').
    { destruct (IH ds (fs ++ [standalone name])%list) as (ds' & fs' & E & Hlen & Hall & Hin).
      exists ds', (standalone name :: fs'). rewrite E, <- app_assoc. simpl.
      repeat split; auto.
      - lia.
      - constructor; [simpl; auto|].
        eapply Forall_impl; [|exact Hall]. simpl. intuition.
      - intros n [->|Hn] Hd; [now left | right; auto]. }
    destruct (is_probably_dish name) eqn:Hdish; [|exact Hstand].
    destruct (dish_entry_of _ _ name) as [d|]; [|exact Hstand].
    destruct (IH (ds ++ [d])%list fs) as (ds' & fs' & E & Hlen & Hall & Hin).
    exists (d :: ds'), fs'. rewrite E, <- app_assoc. simpl.
    repeat split; auto.
    + eapply Forall_impl; [|exact Hall]. simpl. intuition.
    + intros n [->|Hn] Hd; [congruence | auto].
Qed.

(** X17: the first loop of [process_text] places every extracted name
    exactly once, among the dishes found or among the standalone foods:
    the two lists together have as many entries as there are names;
    every standalone food is one of the names with quantity 1.0, and a
    name that is not a probable dish is always among them. *)
Theorem first_loop_places_every_name (l : list string) :
  let routed := fold_left route l ([], []) in
  (List.length (fst routed) + List.length (snd routed))%nat = List.length l
  /\ Forall (fun f => item_quantity f = 1 /\ In (food f) l) (snd routed)
  /\ forall name, In name l -> is_probably_dish name = false ->
                  In (standalone name) (snd routed).
Proof.
  destruct (route_fold l [] []) as (ds' & fs' & E & Hlen & Hall & Hin).
  cbv zeta. rewrite E. simpl. auto.
Qed.

End RoutingFacts.

Section MealExtras.

Variable method : Method.
Variable search_food : string -> option Nutrition.
Variable nlp_food_ents : string -> list string.
Variable extract_food_with_ner : string -> list FoodItem.
Variable extract_food_with_llm : string -> list FoodItem.
Variable search_recipe_in_db : string -> option (string * list string).
Variable generate_recipe_with_llm : string -> list string.

Local Abbreviation names :=
  (extract_dish_names method nlp_food_ents extract_food_with_ner).
Local Abbreviation route :=
  (route_name search_recipe_in_db generate_recipe_with_llm).
Local Abbreviation multiple :=
  (_process_multiple method search_food extract_food_with_ner extract_food_with_llm).
Local Abbreviation analyze :=
  (process_text method search_food nlp_food_ents extract_food_with_ner
     extract_food_with_llm search_recipe_in_db generate_recipe_with_llm).

(** X16: [extract_dish_names] never returns an empty list: without a
    usable FOOD entity it falls back on the foods of the NER extractor
    and, failing that, on the whole text, stripped and lower-cased.  So
    the test for no dish name in [process_text] never fires, and with
    [use_standard_recipe] off the text goes to [_process_multiple]. *)
Theorem extract_dish_names_is_never_empty (text : string) :
  names text <> []
  /\ (nlp_food_ents text = [] -> method = method_llm ->
      names text = [lower (strip text)])
  /\ analyze text false = multiple text.
Proof.
  split; [|split].
  - unfold extract_dish_names.
    destruct (if has_ner method then _ else _); [|discriminate].
    destruct (has_ner method); [|discriminate].
    destruct (extract_food_with_ner text); discriminate.
  - intros Hents ->. unfold extract_dish_names. now rewrite Hents.
  - apply process_text_direct. now right.
Qed.

Lemma resolve_items_spec (fs : list FoodItem) :
  forall (details : list IngredientRecord) (total : Nutrition),
  exists ds,
    resolve_items search_food fs details total
    = Ok ((details ++ ds)%list, fold_left nutr_add (map nutrition ds) total)
    /\ Forall2 (fun f d => get_food_nutrition search_food (food f) (item_quantity f) ""
                           = Ok (nutrition d)
                           /\ unit d = "") fs ds.
Proof.
  induction fs as [|f fs IH]; intros details total.
  - exists []. simpl. rewrite app_nil_r. split; [reflexivity | constructor].
  - cbn [resolve_items]. unfold resolve_item.
    destruct (get_food_nutrition_ok search_food (food f) (item_quantity f) "") as [n Hn].
    rewrite Hn. cbn [bind].
    match goal with
    | |- context [resolve_items _ _ (details ++ [?item])%list ?t] =>
        destruct (IH (details ++ [item])%list t) as [ds [Heq HF]];
        exists (item :: ds)
    end.
    rewrite Heq, <- app_assoc. split; [reflexivity|].
    constructor; [|exact HF]. now split.
Qed.

(** X18: neither [_process_multiple] nor [process_text] ever raises.
    [_process_multiple] returns one of three shapes: nothing, when no
    food was extracted; a single item; or a breakdown of at least two
    items together with its field by field sum rounded to two
    decimals, every item being resolved without a unit.
    [process_text] returns a dish, a combination, or what
    [_process_multiple] returns. *)
Theorem process_text_always_answers (text : string) :
  (exists r, multiple text = Ok r /\ direct_shape r)
  /\ (forall use_standard_recipe, exists r,
         analyze text use_standard_recipe = Ok r
         /\ match r with
            | Some (Dish _) | Some (Combined _ _) => use_standard_recipe = true
            | _ => direct_shape r
            end).
Proof.
  assert (Hm : exists r, multiple text = Ok r /\ direct_shape r).
  { unfold _process_multiple.
    match goal with
    | |- context [match ?e with [] => Ok None | _ => _ end] =>
        destruct e as [|f [|g rest]]
    end.
    - exists None. now split.
    - unfold resolve_item.
      destruct (get_food_nutrition_ok search_food (food f) (item_quantity f) "") as [n Hn].
      rewrite Hn. cbn [bind]. eexists. split; reflexivity.
    - destruct (resolve_items_spec (f :: g :: rest) [] (nutr 0 0 0 0)) as [ds [Heq HF]].
      rewrite Heq. cbn [bind app]. eexists. split; [reflexivity|].
      simpl. repeat split.
      + rewrite <- (Forall2_length HF). simpl. lia.
      + clear Heq. induction HF as [|? ? ? ? [_ Hu] _ IH]; constructor; auto. }
  split; [exact Hm|].
  assert (Hd' : forall b, exists r, multiple text = Ok r
                         /\ match r with
                            | Some (Dish _) | Some (Combined _ _) => b = true
                            | _ => direct_shape r
                            end).
  { intros b. destruct Hm as (r & Hr & Hs). exists r. split; [exact Hr|].
    destruct r as [[| | |]|]; simpl in Hs; auto; contradiction. }
  intros [|].
  - unfold process_text.
    destruct (names text) as [|n ns]; [apply Hd'|].
    cbn [negb].
    destruct (fold_left route (n :: ns) ([], [])) as [ds fs].
    destruct (if has_ner method then _ else fs) as [|f fs'];
      destruct ds as [|d [|d' ds']]; try apply Hd';
      eexists; split; reflexivity.
  - rewrite process_text_direct by now right. apply Hd'.
Qed.

End MealExtras.

Section HybridFacts.

Variable search_food : string -> option Nutrition.
Variable extract_food_with_ner : string -> list FoodItem.
Variable extract_food_with_llm : string -> list FoodItem.

Lemma resolved_items_not_negative (fs : list FoodItem) (ds : list IngredientRecord) :
  lookup_not_negative search_food ->
  Forall (fun f => not_negative (item_quantity f)) fs ->
  Forall2 (fun f d => get_food_nutrition search_food (food f) (item_quantity f) ""
                      = Ok (nutrition d)
                      /\ unit d = "") fs ds ->
  Forall (fun d => all_not_negative (nutrition d)) ds.
Proof.
  intros Hl Hq HF. induction HF as [|x d xs ds [Hn _] _ IH]; constructor.
  - inversion Hq; subst.
    exact (resolved_not_negative search_food _ _ _ _ H1 Hl Hn).
  - apply IH. now inversion Hq.
Qed.

(** X19: in the hybrid mode, when the lookup reports no negative
    protein, fat or carbohydrate, [_process_multiple] reports no
    negative figure, whatever quantities the two extractors return:
    the merge of [_merge_ner_llm] raises every quantity to at least
    zero before the foods are resolved. *)
Theorem hybrid_breakdown_is_not_negative (text : string) (r : option MealResult) :
  lookup_not_negative search_food ->
  _process_multiple method_hybrid search_food extract_food_with_ner
    extract_food_with_llm text = Ok r ->
  direct_not_negative r.
Proof.
  intros Hl. unfold _process_multiple. cbn [has_ner].
  set (merged := _merge_ner_llm (extract_food_with_ner text) (extract_food_with_llm text)).
  assert (Hq : Forall (fun f => not_negative (item_quantity f))
                 (map (fun item => {| food := clean_entity_text (food item);
                                      item_quantity := item_quantity item |}) merged)).
  { apply Forall_map. simpl.
    apply Forall_map with (f := item_quantity) (P := not_negative).
    unfold merged, _merge_ner_llm. rewrite <- fold_left_app, items_quantities.
    destruct (merge_fold (extract_food_with_ner text ++ extract_food_with_llm text) []
                (NoDup_nil _) (Forall_nil _)) as (_ & H2 & _).
    eapply Forall_impl; [|exact H2]. exact at_least_zero_not_negative. }
  destruct (map _ merged) as [|f [|g rest]].
  - intros H. inversion H. exact I.
  - unfold resolve_item.
    destruct (get_food_nutrition search_food (food f) (item_quantity f) "") as [n|e] eqn:Hn;
      cbn [bind]; intros H; inversion H; subst. simpl.
    inversion Hq; subst.
    exact (resolved_not_negative search_food _ _ _ _ H2 Hl Hn).
  - destruct (resolve_items_spec search_food (f :: g :: rest) [] (nutr 0 0 0 0))
      as [ds [Heq HF]].
    rewrite Heq. cbn [bind app]. intros H. inversion H; subst. simpl.
    assert (Hds : Forall (fun d => all_not_negative (nutrition d)) ds)
      by exact (resolved_items_not_negative _ _ Hl Hq HF).
    split; [exact Hds|].
    apply (rounded_not_negative (fold_left nutr_add (map nutrition ds) (nutr 0 0 0 0))).
    apply sum_not_negative; [|apply zero_nutrition_not_negative].
    now apply Forall_map.
Qed.

End HybridFacts.

(* ------------------------------------------------------------------ *)
(** * More runs of the model *)

Section MoreRuns.

Lemma dish_name_inside_witness :
  is_probably_dish "misosoup" = true /\ is_probably_dish (lower "misosoup") = true.
Proof. apply (is_probably_dish_is_monotone "soup" "misosoup"); reflexivity. Defined.

Lemma bare_time_marker_witness : clean_entity_text "Today" = "today".
Proof. apply (clean_entity_text_keeps_single_words "Today"). reflexivity. Defined.

Lemma energy_listed_twice_witness :
  figure_of "Energy" (snd (USDAFoodLookup._extract_nutrition_info sample_food_data)) = 318
  /\ figure_of "Carbohydrate, by difference"
       (snd (USDAFoodLookup._extract_nutrition_info sample_food_data)) = 0.
Proof.
  split.
  - apply (proj1 (extract_nutrition_info_last_entry_wins sample_food_data "Energy"
                    (or_introl eq_refl))
             [ {| USDAFoodLookup.nutrientName := "Energy"; USDAFoodLookup.value := 76 |};
               {| USDAFoodLookup.nutrientName := "Protein"; USDAFoodLookup.value := 8 |} ]
             {| USDAFoodLookup.nutrientName := "Energy"; USDAFoodLookup.value := 318 |}
             [ {| USDAFoodLookup.nutrientName := "Total lipid (fat)";
                  USDAFoodLookup.value := 4.8 |} ]).
    + reflexivity.
    + reflexivity.
    + intros m [<-|[]]. discriminate.
  - apply (proj2 (extract_nutrition_info_last_entry_wins sample_food_data
                    "Carbohydrate, by difference"
                    (or_intror (or_intror (or_intror (or_introl eq_refl)))))).
    intros m [<-|[<-|[<-|[<-|[]]]]]; discriminate.
Defined.

Lemma usda_sample_witness :
  lookup_not_negative (USDAFoodLookup.figures sample_response)
  /\ USDAFoodLookup.figures sample_response "tofu" = Some (nutr 318 8 4.8 0).
Proof.
  split; [|reflexivity].
  apply (usda_figures_are_not_negative sample_response).
  intros name first rest. unfold sample_response.
  destruct (String.eqb name "tofu"); simpl; intros H; inversion H; subst.
  repeat constructor.
Defined.

Lemma half_a_cup_witness :
  NERFoodExtractor._parse_quantity_str "1/2 cup" = Ok 1
  /\ (NERFoodExtractor._parse_quantity_str "inf/inf" = Ok 1
      \/ NERFoodExtractor._parse_quantity_str "inf/inf" = Ok nan).
Proof.
  split.
  - apply (proj2 (proj2 parse_quantity_str_reads_the_first_number) "1" "2 cup").
    + reflexivity.
    + discriminate.
  - apply (proj1 (proj2 parse_quantity_str_reads_the_first_number) "inf/inf").
    reflexivity.
Defined.

Lemma upper_case_name_witness :
  get_food_nutrition no_lookup "  Chicken " 2 ""
  = get_food_nutrition no_lookup "chicken" 2 "".
Proof.
  apply (proj2 (get_food_nutrition_ignores_case_and_blanks no_lookup)).
  reflexivity.
Defined.

Lemma two_servings_of_tofu_witness :
  get_food_nutrition no_lookup "tofu" 2 ""
  = get_food_nutrition no_lookup "tofu" (2 * 100) "g".
Proof.
  apply (proj2 (no_unit_means_servings_of_100_grams no_lookup "tofu" 2));
    reflexivity.
Defined.

Lemma twenty_servings_of_tofu_witness :
  get_food_nutrition no_lookup "tofu" 20 "" = Ok (nutr 800 40 40 80)
  /\ get_food_nutrition no_lookup "tofu" 20 ""
     = get_food_nutrition no_lookup "tofu" 8 "".
Proof.
  apply (unknown_food_is_capped_at_eight_servings no_lookup "tofu" 20 "");
    reflexivity.
Defined.

Lemma upper_case_unit_witness :
  convert_to_grams 2 (lower "KG") = convert_to_grams 2 "KG"
  /\ not_negative (convert_to_grams 2 "KG").
Proof.
  destruct (convert_to_grams_ignores_case 2 "KG") as [H1 H2].
  split; [exact H1|]. apply H2. reflexivity.
Defined.

Lemma soup_figures_witness :
  exists r,
    _analyze_ingredients_list no_lookup ["500g tofu"; "400g tofu"] "Miso Soup" = Ok r
    /\ all_not_negative (total_nutrition r)
    /\ Forall (fun d => all_not_negative (nutrition d) /\ not_negative (quantity d))
              (ingredients r).
Proof.
  eexists. split; [vm_compute; reflexivity|].
  apply (dish_analysis_is_not_negative no_lookup ["500g tofu"; "400g tofu"] "Miso Soup").
  - intros f u H. discriminate H.
  - vm_compute. reflexivity.
Defined.

Lemma whole_text_fallback_witness :
  extract_dish_names method_llm sample_ents no_items " Rice " = ["rice"].
Proof.
  apply (proj1 (proj2 (extract_dish_names_is_never_empty method_llm no_lookup
                         sample_ents no_items no_items no_recipe_row no_recipe
                         " Rice "))); reflexivity.
Defined.

Lemma apple_is_standalone_witness :
  In (standalone "apple")
     (snd (fold_left (route_name sample_db no_recipe) ["chicken soup"; "apple"] ([], []))).
Proof.
  apply (proj2 (proj2 (first_loop_places_every_name sample_db no_recipe
                         ["chicken soup"; "apple"])) "apple").
  - simpl. auto.
  - reflexivity.
Defined.

Lemma hybrid_apple_and_milk_witness :
  exists r,
    _process_multiple method_hybrid no_lookup sample_ner no_items "an apple with milk"
    = Ok r
    /\ direct_not_negative r.
Proof.
  eexists. split; [vm_compute; reflexivity|].
  apply (hybrid_breakdown_is_not_negative no_lookup sample_ner no_items
           "an apple with milk").
  - intros f u H. discriminate H.
  - vm_compute. reflexivity.
Defined.

Lemma two_cups_then_two_foods_witness :
  NERFoodExtractor.pair_entities
    [("QUANTITY", "2 cups"); ("FOOD", "rice"); ("FOOD", "milk today")] None []
  = Ok [ {| food := "rice"; item_quantity := 2 |};
         {| food := "milk"; item_quantity := 1 |} ].
Proof.
  apply (proj2 (pair_entities_uses_a_quantity_once []) "2 cups" "rice" "milk today" 2).
  - reflexivity.
  - vm_compute. lia.
  - vm_compute. lia.
Defined.

End MoreRuns.
